(** * Customer case analysis dashboard (app.py): cleaning and aggregations

    A shallow embedding of [src/app.py].  The script reads a CSV file into a
    pandas DataFrame, cleans it ([load_and_clean_data]), and then computes
    five aggregations that are handed to chart constructors.

    Modelling choices:
    - a DataFrame is an ordered list of column labels and a list of rows; a
      row maps a column label to the value of its cell, and a cell that is
      absent (NaN / NaT) is a label without a binding;
    - the row index is left out: no step of the script reads it;
    - floating-point cells are left out; integer, text and timestamp cells
      are kept;
    - [pd.to_datetime] on a text or an integer scalar is pandas code, not
      code of this repository: it is a parameter of the development;
    - Streamlit calls are events appended to a trace; [st.cache_data] only
      memoises [load_and_clean_data] across reruns, and one run is modelled. *)

From stdpp Require Import base gmap strings list sorting pretty.

(** ** Values, rows and frames *)

(** A pandas [Timestamp], by its calendar fields. *)
Record Timestamp := mkTimestamp {
  ts_year : Z;
  ts_month : Z;
  ts_day : Z;
  ts_nanos : Z   (* nanoseconds since midnight *)
}.

Global Instance Timestamp_eq_dec : EqDecision Timestamp.
Proof. solve_decision. Defined.

Inductive value :=
  | VStr (s : string)
  | VInt (n : Z)
  | VTime (t : Timestamp).

Global Instance value_eq_dec : EqDecision value.
Proof. solve_decision. Defined.

(** A column read out of a frame ([df[c]]): one optional value per row. *)
Abbreviation Series := (list (option value)).

Record DataFrame := mkFrame {
  columns : list string;
  rows : list (gmap string value)
}.

Global Instance DataFrame_eq_dec : EqDecision DataFrame.
Proof. solve_decision. Defined.

(** [df.shape[0]] *)
Definition n_rows (df : DataFrame) : nat := length (rows df).

(** Every bound label of every row is a column of the frame. *)
Definition wf_frame (df : DataFrame) : Prop :=
  Forall (λ r, dom r ⊆@{gset string} list_to_set (columns df)) (rows df).

Global Instance wf_frame_dec (df : DataFrame) : Decision (wf_frame df).
Proof. unfold wf_frame. apply _. Defined.

(** A frame whose rows all hold an opened timestamp. *)
Definition dated (df : DataFrame) : Prop :=
  ∀ r, r ∈ rows df → ∃ t, r !! "Opened Date" = Some (VTime t).

(** ** Exceptions and pandas calls that may raise *)

Inductive exn :=
  | FileNotFoundError
  | OSError (msg : string)        (* any other failure of [read_csv] *)
  | KeyError (c : string)
  | AttributeError
  | ValueError (s : string).

Global Instance exn_eq_dec : EqDecision exn.
Proof. solve_decision. Defined.

Inductive result (A : Type) :=
  | Ok (a : A)
  | Raise (e : exn).
Arguments Ok {A} a.
Arguments Raise {A} e.

Global Instance result_ret : MRet result := λ A a, Ok a.
Global Instance result_bind : MBind result := λ A B f m,
  match m with
  | Ok a => f a
  | Raise e => Raise e
  end.

(** [df[c]]: [KeyError] when the label is not a column. *)
Definition get_column (df : DataFrame) (c : string) : result Series :=
  if decide (c ∈ columns df) then Ok ((λ r, r !! c) <$> rows df)
  else Raise (KeyError c).

(** [df[c] = s]: an existing column is overwritten in place, a new one is
    appended. *)
Definition set_column (c : string) (s : Series) (df : DataFrame) : DataFrame :=
  {| columns := if decide (c ∈ columns df) then columns df
                else columns df ++ [c];
     rows := zip_with (λ o r, partial_alter (λ _, o) c r) s (rows df) |}.

(** [df.dropna(subset=[c], inplace=True)] *)
Definition dropna (c : string) (df : DataFrame) : DataFrame :=
  {| columns := columns df;
     rows := filter (λ r, is_Some (r !! c)) (rows df) |}.

(** [df[c].isnull().all()] on a column that exists *)
Definition all_null (c : string) (df : DataFrame) : bool :=
  forallb (λ r, bool_decide (r !! c = None)) (rows df).

(** [df.drop(columns=[c], inplace=True)] on a column that exists *)
Definition drop_column (c : string) (df : DataFrame) : DataFrame :=
  {| columns := filter (λ c', c' ≠ c) (columns df);
     rows := delete c <$> rows df |}.

(** Keep the first occurrence of each element, in order; [seen] holds the
    elements met so far. *)
Fixpoint keep_first {A} `{EqDecision A} (seen l : list A) : list A :=
  match l with
  | [] => []
  | x :: l' =>
      if decide (x ∈ seen) then keep_first seen l'
      else x :: keep_first (x :: seen) l'
  end.

(** [df.drop_duplicates(inplace=True)]: rows equal on every column, the
    first of each group is kept. *)
Definition drop_duplicates (df : DataFrame) : DataFrame :=
  {| columns := columns df; rows := keep_first [] (rows df) |}.

(** ** Sorting

    Insertion sort, stable: elements that [R] relates both ways keep the
    order they had. *)

Section stable_sort.
Context {A : Type} (R : relation A) `{!RelDecision R}.

Fixpoint insert_sorted (x : A) (l : list A) : list A :=
  match l with
  | [] => [x]
  | y :: l' => if decide (R x y) then x :: y :: l'
               else y :: insert_sorted x l'
  end.

Fixpoint stable_sort (l : list A) : list A :=
  match l with
  | [] => []
  | x :: l' => insert_sorted x (stable_sort l')
  end.
End stable_sort.

(** ** Frequency tables *)

(** Number of occurrences of [k] in [l]. *)
Definition count {A} `{EqDecision A} (k : A) (l : list A) : nat :=
  length (filter (λ x, x = k) l).

(** The distinct elements of [l], in the order they are first met, each
    with its number of occurrences. *)
Definition frequencies {A} `{EqDecision A} (l : list A) : list (A * nat) :=
  (λ k, (k, count k l)) <$> keep_first [] l.

Definition by_count_desc : relation (value * nat) := λ a b, b.2 ≤ a.2.

Global Instance by_count_desc_dec : RelDecision by_count_desc.
Proof. intros a b. unfold by_count_desc. apply _. Defined.

(** [s.value_counts()]: absent cells are left out ([dropna=True]), the
    table is sorted by descending count ([sort=True]).  pandas does not fix
    the order of values of equal count; here they keep the order in which
    they are first met, and no statement below depends on it. *)
Definition value_counts (s : Series) : list (value * nat) :=
  stable_sort by_count_desc (frequencies (omap id s)).

(** [s.head(n)] *)
Definition head {A} (n : nat) (l : list A) : list A := take n l.
Arguments head : simpl never.

Definition by_label : relation (string * nat) :=
  λ a b, String.leb a.1 b.1 = true.

Global Instance by_label_dec : RelDecision by_label.
Proof. intros a b. unfold by_label. apply _. Defined.

(** [groupby(key).size()] over a column of text labels: one entry per
    distinct label, in ascending label order ([sort=True]). *)
Definition groupby_size (labels : list string) : list (string * nat) :=
  stable_sort by_label (frequencies labels).

(** Number of records whose column [c] holds the value [v]. *)
Definition occurrences (c : string) (v : value) (df : DataFrame) : nat :=
  length (filter (λ r, r !! c = Some v) (rows df)).

(** [t] lists every value of column [c] once, with its number of records. *)
Definition full_table (c : string) (df : DataFrame) (t : list (value * nat))
  : Prop :=
  NoDup t.*1 ∧
  ∀ v n, (v, n) ∈ t ↔ 0 < n ∧ n = occurrences c v df.

(** [t] holds at most [k] values of column [c], each once and with its
    number of records, in descending order of count; a value that is left
    out has no more records than any value that is listed, and is only left
    out of a table that is full. *)
Definition top_table (k : nat) (c : string) (df : DataFrame)
    (t : list (value * nat)) : Prop :=
  length t ≤ k ∧
  NoDup t.*1 ∧
  StronglySorted by_count_desc t ∧
  (∀ v n, (v, n) ∈ t → 0 < n ∧ n = occurrences c v df) ∧
  (∀ v, 0 < occurrences c v df → v ∉ t.*1 →
        length t = k ∧ ∀ x, x ∈ t → occurrences c v df ≤ x.2).

(** ** Timestamps and monthly periods *)

(** A [Period] of frequency ['M']. *)
Record Period := mkPeriod {
  p_year : Z;
  p_month : Z
}.

Global Instance Period_eq_dec : EqDecision Period.
Proof. solve_decision. Defined.

(** [.dt.to_period('M')] on one timestamp *)
Definition to_period (t : Timestamp) : Period :=
  mkPeriod (ts_year t) (ts_month t).

(** First instant of the month. *)
Definition start_time (p : Period) : Timestamp :=
  mkTimestamp (p_year p) (p_month p) 1 0.

Fixpoint zeros (n : nat) : string :=
  match n with
  | O => ""
  | S n' => "0" +:+ zeros n'
  end.

Definition zfill (width : nat) (s : string) : string :=
  zeros (width - String.length s) +:+ s.

(** [str] of a monthly period: ["%Y-%m"]. *)
Definition period_str (p : Period) : string :=
  zfill 4 (pretty (p_year p)) +:+ "-" +:+ zfill 2 (pretty (p_month p)).

(** Chronological order. *)
Definition ts_lt (a b : Timestamp) : Prop :=
  (ts_year a < ts_year b ∨ (ts_year a = ts_year b ∧
   (ts_month a < ts_month b ∨ (ts_month a = ts_month b ∧
    (ts_day a < ts_day b ∨ (ts_day a = ts_day b ∧
     ts_nanos a < ts_nanos b))))))%Z.

Definition ts_le (a b : Timestamp) : Prop := ts_lt a b ∨ a = b.

Global Instance ts_lt_dec : RelDecision ts_lt.
Proof. intros a b. unfold ts_lt. apply _. Defined.

Global Instance ts_le_dec : RelDecision ts_le.
Proof. intros a b. unfold ts_le. apply _. Defined.

(** Order of [sort_values] on a datetime column: ascending, with the
    absent value last ([na_position='last']). *)
Definition key_le (a b : option Timestamp) : Prop :=
  match a, b with
  | Some x, Some y => ts_le x y
  | _, None => True
  | None, Some _ => False
  end.

Global Instance key_le_dec : RelDecision key_le.
Proof. intros [a|] [b|]; simpl; apply _. Defined.

Definition by_month : relation (option Timestamp * nat) :=
  λ a b, key_le a.1 b.1.

Global Instance by_month_dec : RelDecision by_month.
Proof. intros a b. unfold by_month. apply _. Defined.

(** [frame.sort_values('YearMonth')] on the two-column monthly frame. *)
Definition sort_values (l : list (option Timestamp * nat))
  : list (option Timestamp * nat) :=
  stable_sort by_month l.

(** Strictly earlier, between two keys that are present. *)
Definition key_lt (a b : option Timestamp) : Prop :=
  match a, b with
  | Some x, Some y => ts_lt x y
  | _, _ => False
  end.

(** The month a record was opened in. *)
Definition month_of (r : gmap string value) : option Period :=
  match r !! "Opened Date" with
  | Some (VTime t) => Some (to_period t)
  | _ => None
  end.

(** The label line 108 stores for a record. *)
Definition month_label (r : gmap string value) : string :=
  match month_of r with
  | Some p => period_str p
  | None => "NaT"
  end.

(** Number of records opened in month [p]. *)
Definition records_in_month (p : Period) (df : DataFrame) : nat :=
  length (filter (λ r, month_of r = Some p) (rows df)).

(** The label of one cell of a datetime column after
    [.dt.to_period('M').astype(str)]; the [.dt] accessor raises on a column
    that holds anything but timestamps. *)
Definition year_month_label (o : option value) : result string :=
  match o with
  | None => Ok "NaT"
  | Some (VTime t) => Ok (period_str (to_period t))
  | Some _ => Raise AttributeError
  end.

(** ** Streamlit: events, outcomes and the script monad *)

Inductive chart :=
  | Bar (title : string) (data : list (value * nat))
  | Line (title : string) (data : list (option Timestamp * nat)).

Inductive event :=
  | StError (msg : string)
  | SidebarInfo (msg : string)
  | PageConfig
  | Title (s : string)
  | Header (s : string)
  | Text (section : nat)     (* [st.write] of the fixed paragraph of a section *)
  | Rule                     (* [st.markdown("---")] *)
  | PlotlyChart (c : chart)
  | Info (msg : string).

Inductive outcome (A : Type) :=
  | Done (a : A)
  | Uncaught (e : exn)    (* an exception left the script *)
  | Stopped.              (* [st.stop()] *)
Arguments Done {A} a.
Arguments Uncaught {A} e.
Arguments Stopped {A}.

Definition M (A : Type) : Type := list event * outcome A.

Global Instance M_ret : MRet M := λ A a, ([], Done a).
Global Instance M_bind : MBind M := λ A B f m,
  match m with
  | (ev, Done a) => let '(ev', o) := f a in (ev ++ ev', o)
  | (ev, Uncaught e) => (ev, Uncaught e)
  | (ev, Stopped) => (ev, Stopped)
  end.

Definition emit (e : event) : M () := ([e], Done ()).
Definition st_stop {A} : M A := ([], Stopped).
Definition lift {A} (r : result A) : M A :=
  match r with
  | Ok a => ([], Done a)
  | Raise e => ([], Uncaught e)
  end.

(** The result of [pd.read_csv('data/data.csv')]. *)
Inductive read_result :=
  | ReadOk (df : DataFrame)
  | ReadFail (e : exn).

Definition not_found_message : string :=
  "Error: 'data.csv' not found. Please make sure the file is in the same directory as the Streamlit app.".

Definition store_dropped_message : string :=
  "Dropped 'Store' column due to all null values.".

Definition duplicates_message (n : nat) : string :=
  "Removed " +:+ pretty n +:+ " duplicate rows.".

Definition no_duplicates_message : string := "No duplicate rows found.".

(** The notice of lines 29-32, from the row counts before and after. *)
Definition duplicates_notice (before after : nat) : string :=
  if bool_decide (after < before) then duplicates_message (before - after)
  else no_duplicates_message.

Section Pipeline.

(** [pd.to_datetime] on one text value and on one integer value, with
    [None] for a value that does not parse. *)
Variable parse_datetime : string → option Timestamp.
Variable epoch_datetime : Z → option Timestamp.

(** [pd.to_datetime(_, errors='coerce')] on one cell: what does not parse
    becomes absent, a timestamp stays as it is. *)
Definition to_datetime (o : option value) : option value :=
  match o with
  | None => None
  | Some (VTime t) => Some (VTime t)
  | Some (VStr s) => VTime <$> parse_datetime s
  | Some (VInt n) => VTime <$> epoch_datetime n
  end.

(** What line 17 does to one row. *)
Definition with_datetime (r : gmap string value) : gmap string value :=
  partial_alter (λ _, to_datetime (r !! "Opened Date")) "Opened Date" r.

(** Lines 17-18. *)
Definition parse_opened_date (df : DataFrame) : result DataFrame :=
  dates ← get_column df "Opened Date";
  mret (dropna "Opened Date"
          (set_column "Opened Date" (to_datetime <$> dates) df)).

(** Lines 21-23. *)
Definition prune_store (df : DataFrame) : M DataFrame :=
  if bool_decide ("Store" ∈ columns df) && all_null "Store" df then
    emit (SidebarInfo store_dropped_message);;
    mret (drop_column "Store" df)
  else mret df.

(** Lines 26-32. *)
Definition remove_duplicates (df : DataFrame) : M DataFrame :=
  let initial_rows := n_rows df in
  let df := drop_duplicates df in
  let rows_after_duplicates := n_rows df in
  (if bool_decide (rows_after_duplicates < initial_rows) then
     emit (SidebarInfo
             (duplicates_message (initial_rows - rows_after_duplicates)))
   else emit (SidebarInfo no_duplicates_message));;
  mret df.

(** Lines 10-14: only [FileNotFoundError] is caught. *)
Definition read_or_halt (src : read_result) : M DataFrame :=
  match src with
  | ReadOk df => mret df
  | ReadFail FileNotFoundError =>
      emit (StError not_found_message);; st_stop
  | ReadFail e => lift (Raise e)
  end.

Definition load_and_clean_data (src : read_result) : M DataFrame :=
  df ← read_or_halt src;
  df ← lift (parse_opened_date df);
  df ← prune_store df;
  remove_duplicates df.

(** ** The five aggregations *)

(** Line 54. *)
Definition status_counts (df : DataFrame) : result (list (value * nat)) :=
  s ← get_column df "Status"; mret (value_counts s).

(** Line 67. *)
Definition origin_counts (df : DataFrame) : result (list (value * nat)) :=
  s ← get_column df "Case Origin"; mret (value_counts s).

(** Line 80. *)
Definition top_brands (df : DataFrame) : result (list (value * nat)) :=
  s ← get_column df "Product: Brand"; mret (head 10 (value_counts s)).

(** Line 94. *)
Definition top_reasons (df : DataFrame) : result (list (value * nat)) :=
  s ← get_column df "Reason L1 desc"; mret (head 10 (value_counts s)).

(** [pd.to_datetime] with the default [errors='raise'] on one label. *)
Definition to_datetime_strict (s : string) : result (option Timestamp) :=
  if decide (s = "NaT") then Ok None
  else match parse_datetime s with
       | Some t => Ok (Some t)
       | None => Raise (ValueError s)
       end.

(** Lines 108-111.  Line 108 stores the labels in the frame itself, as
    column ['YearMonth']; line 109 groups the frame by that column. The
    result is the frame after line 108 and the monthly table. *)
Definition monthly_cases (df : DataFrame)
  : result (DataFrame * list (option Timestamp * nat)) :=
  dates ← get_column df "Opened Date";
  labels ← mapM year_month_label dates;
  let df := set_column "YearMonth" (Some ∘ VStr <$> labels) df in
  let grouped := groupby_size labels in
  keys ← mapM to_datetime_strict grouped.*1;
  mret (df, sort_values (zip keys grouped.*2)).

(** The monthly table that lines 109-111 build from the labels of the
    rows, when every label is read back. *)
Definition monthly_table (df : DataFrame) : list (option Timestamp * nat) :=
  sort_values ((λ x, (parse_datetime x.1, x.2))
                 <$> groupby_size (month_label <$> rows df)).

(** [pd.to_datetime] reads the label of every month of the frame back as
    the first instant of that month. *)
Definition labels_read_back (df : DataFrame) : Prop :=
  Forall (λ r, match month_of r with
               | Some p => parse_datetime (period_str p) = Some (start_time p)
               | None => True
               end) (rows df).

Global Instance labels_read_back_dec (df : DataFrame) :
  Decision (labels_read_back df).
Proof.
  unfold labels_read_back. apply Forall_dec. intros r.
  destruct (month_of r); apply _.
Defined.

(** ** The script, top to bottom *)

(** Lines 38-123: the page, given the cleaned frame.  The result is the
    frame as the script leaves it. *)
Definition dashboard (df : DataFrame) : M DataFrame :=
  emit PageConfig;;
  emit (Title "Customer Case Analysis Dashboard");;
  emit (Text 0);;
  emit Rule;;
  emit (Header "1. Distribution of Case Status");;
  t ← lift (status_counts df);
  emit (PlotlyChart (Bar "Distribution of Case Status" t));;
  emit (Text 1);;
  emit Rule;;
  emit (Header "2. Distribution of Case Origin");;
  t ← lift (origin_counts df);
  emit (PlotlyChart (Bar "Distribution of Case Origin" t));;
  emit (Text 2);;
  emit Rule;;
  emit (Header "3. Top 10 Product Brands by Case Count");;
  t ← lift (top_brands df);
  emit (PlotlyChart (Bar "Top 10 Product Brands by Case Count" t));;
  emit (Text 3);;
  emit Rule;;
  emit (Header "4. Top 10 Reasons L1 Description by Case Count");;
  t ← lift (top_reasons df);
  emit (PlotlyChart (Bar "Top 10 Reasons L1 Description by Case Count" t));;
  emit (Text 4);;
  emit Rule;;
  emit (Header "5. Monthly Trend of Cases Over Time");;
  '(df, t) ← lift (monthly_cases df);
  emit (PlotlyChart (Line "Monthly Trend of Cases Over Time" t));;
  emit (Text 5);;
  emit Rule;;
  emit (Info "Analysis and visualizations completed. This app provides a dynamic view of your customer case data.");;
  mret df.

(** Line 36, then the page. *)
Definition script (src : read_result) : M DataFrame :=
  df ← load_and_clean_data src;
  dashboard df.

End Pipeline.

(** ** What the user is shown *)

Definition is_chart (e : event) : bool :=
  match e with PlotlyChart _ => true | _ => false end.

Definition charts (ev : list event) : list event := filter is_chart ev.

(** Error messages on the page: the [st.error] boxes, and the exception box
    Streamlit renders when an exception leaves the script. *)
Definition exception_box (e : exn) : string :=
  match e with
  | FileNotFoundError => "FileNotFoundError"
  | OSError msg => "OSError: " +:+ msg
  | KeyError c => "KeyError: " +:+ c
  | AttributeError => "AttributeError"
  | ValueError s => "ValueError: " +:+ s
  end.

Definition error_messages {A} (run : M A) : list string :=
  omap (λ e, match e with StError m => Some m | _ => None end) run.1
  ++ match run.2 with
     | Uncaught e => [exception_box e]
     | _ => []
     end.

(** The columns the four frequency sections read, in page order. *)
Definition aggregated_columns : list string :=
  ["Status"; "Case Origin"; "Product: Brand"; "Reason L1 desc"].

(** Every value of column [c] is one of [vs]. *)
Definition column_within (c : string) (vs : list value) (df : DataFrame)
  : Prop :=
  Forall (λ r, match r !! c with
               | Some v => v ∈ vs
               | None => True
               end) (rows df).

Global Instance column_within_dec c vs df : Decision (column_within c vs df).
Proof.
  unfold column_within. apply Forall_dec. intros r.
  destruct (r !! c); apply _.
Defined.

(** ** A sample parser and sample tables, for the examples *)

Module Sample.

Definition digit (a : Ascii.ascii) : option Z :=
  let n := Z.of_nat (Ascii.nat_of_ascii a) in
  if bool_decide (48 ≤ n ≤ 57)%Z then Some (n - 48)%Z else None.

Fixpoint number (acc : Z) (l : list Ascii.ascii) : option Z :=
  match l with
  | [] => Some acc
  | a :: l' => d ← digit a; number (10 * acc + d)%Z l'
  end.

Definition dash : Ascii.ascii := Ascii.ascii_of_nat 45.

(** ISO dates ["YYYY-MM-DD"] and ["YYYY-MM"], two of the formats
    [pd.to_datetime] reads. *)
Definition iso_parse (s : string) : option Timestamp :=
  match String.list_ascii_of_string s with
  | [y1; y2; y3; y4; s1; m1; m2; s2; d1; d2] =>
      y ← number 0 [y1; y2; y3; y4];
      m ← number 0 [m1; m2];
      d ← number 0 [d1; d2];
      if bool_decide (s1 = dash ∧ s2 = dash ∧ 1 ≤ m ≤ 12 ∧ 1 ≤ d ≤ 31)%Z
      then Some (mkTimestamp y m d 0) else None
  | [y1; y2; y3; y4; s1; m1; m2] =>
      y ← number 0 [y1; y2; y3; y4];
      m ← number 0 [m1; m2];
      if bool_decide (s1 = dash ∧ 1 ≤ m ≤ 12)%Z
      then Some (mkTimestamp y m 1 0) else None
  | _ => None
  end.

Definition no_epoch (n : Z) : option Timestamp := None.

Definition base_columns : list string :=
  ["Opened Date"; "Status"; "Case Origin"; "Product: Brand";
   "Reason L1 desc"].

Definition full_row (date : value) (status origin brand reason : string)
  : gmap string value :=
  {[ "Opened Date" := date; "Status" := VStr status;
     "Case Origin" := VStr origin; "Product: Brand" := VStr brand;
     "Reason L1 desc" := VStr reason ]}.

(** Three rows with a date (January, January, February 2024), the second
    of them twice, and one row without a date; the ['Store'] column is
    empty. *)
Definition cases : DataFrame :=
  mkFrame (base_columns ++ ["Store"])
    [ full_row (VStr "2024-01-05") "Closed" "Email" "Knorr" "Queries";
      full_row (VStr "2024-01-20") "Open" "Phone" "Knorr" "Others";
      full_row (VStr "2024-01-20") "Open" "Phone" "Knorr" "Others";
      full_row (VStr "2024-02-11") "Closed" "Email" "Pepsodent" "Queries";
      delete "Opened Date"
        (full_row (VStr "") "Open" "Email" "Knorr" "Queries") ].

Definition day (y m d : Z) : value := VTime (mkTimestamp y m d 0).

(** [cases], cleaned. *)
Definition cleaned_cases : DataFrame :=
  mkFrame base_columns
    [ full_row (day 2024 1 5) "Closed" "Email" "Knorr" "Queries";
      full_row (day 2024 1 20) "Open" "Phone" "Knorr" "Others";
      full_row (day 2024 2 11) "Closed" "Email" "Pepsodent" "Queries" ].

Definition cases_notices : list event :=
  [ SidebarInfo "Dropped 'Store' column due to all null values.";
    SidebarInfo "Removed 1 duplicate rows." ].

(** One dated row, and a column ['Notes'] that holds nothing. *)
Definition notes_table : DataFrame :=
  mkFrame (base_columns ++ ["Notes"])
    [ full_row (VStr "2024-01-05") "Closed" "Email" "Knorr" "Queries" ].

Definition cleaned_notes : DataFrame :=
  mkFrame (base_columns ++ ["Notes"])
    [ full_row (day 2024 1 5) "Closed" "Email" "Knorr" "Queries" ].

(** [cleaned_cases] as the script leaves it. *)
Definition final_cases : DataFrame :=
  mkFrame (base_columns ++ ["YearMonth"])
    [ <["YearMonth" := VStr "2024-01"]>
        (full_row (day 2024 1 5) "Closed" "Email" "Knorr" "Queries");
      <["YearMonth" := VStr "2024-01"]>
        (full_row (day 2024 1 20) "Open" "Phone" "Knorr" "Others");
      <["YearMonth" := VStr "2024-02"]>
        (full_row (day 2024 2 11) "Closed" "Email" "Pepsodent" "Queries") ].

(** One dated row whose status is absent. *)
Definition no_status_table : DataFrame :=
  mkFrame base_columns
    [ delete "Status"
        (full_row (VStr "2024-01-05") "" "Email" "Knorr" "Queries") ].

Definition cleaned_no_status : DataFrame :=
  mkFrame base_columns
    [ delete "Status"
        (full_row (day 2024 1 5) "" "Email" "Knorr" "Queries") ].


(** A table without an ['Opened Date'] column. *)
Definition undated_table : DataFrame :=
  mkFrame ["Status"; "Case Origin"]
    [ {[ "Status" := VStr "Open"; "Case Origin" := VStr "Email" ]} ].

(** Two rows whose dates do not parse; one of them has a ['Store']. *)
Definition unparsed_cases : DataFrame :=
  mkFrame (base_columns ++ ["Store"])
    [ <["Store" := VStr "Lagos"]>
        (full_row (VStr "soon") "Open" "Email" "Knorr" "Queries");
      delete "Opened Date"
        (full_row (VStr "") "Closed" "Phone" "Knorr" "Others") ].


(** A table without a ['Product: Brand'] column, and that table cleaned. *)
Definition unbranded_cases : DataFrame :=
  mkFrame ["Opened Date"; "Status"; "Case Origin"]
    [ {[ "Opened Date" := VStr "2024-01-05"; "Status" := VStr "Open";
         "Case Origin" := VStr "Email" ]} ].

Definition cleaned_unbranded : DataFrame :=
  mkFrame ["Opened Date"; "Status"; "Case Origin"]
    [ {[ "Opened Date" := day 2024 1 5; "Status" := VStr "Open";
         "Case Origin" := VStr "Email" ]} ].

End Sample.


(** * Properties *)

(** ** Lists: first occurrences, counting, sorting *)

Lemma sum_list_cons (n : nat) (l : list nat) :
  sum_list (n :: l) = n + sum_list l.
Proof. done. Qed.

Section list_facts.
Context {A : Type} `{EqDecision A}.
Implicit Types (x k : A) (l seen : list A).

Lemma filter_all (P : A → Prop) `{!∀ x, Decision (P x)} l :
  Forall P l → filter P l = l.
Proof.
  induction 1 as [|x l Hx _ IH]; [done|].
  rewrite filter_cons, decide_True by done. by rewrite IH.
Qed.

Lemma elem_of_keep_first seen l x :
  x ∈ keep_first seen l ↔ x ∈ l ∧ x ∉ seen.
Proof.
  revert seen. induction l as [|y l IH]; intros seen; simpl.
  - split; [by intros ?%elem_of_nil|by intros [?%elem_of_nil _]].
  - destruct (decide (y ∈ seen)) as [Hy|Hy].
    + rewrite IH, elem_of_cons. split; [tauto|].
      intros [[->|Hx] Hseen]; [done|tauto].
    + rewrite !elem_of_cons, IH, not_elem_of_cons. split.
      * intros [->|(Hx & Hne & Hseen)]; tauto.
      * intros [[->|Hx] Hseen]; [by left|].
        destruct (decide (x = y)) as [->|Hne]; [by left|tauto].
Qed.

Lemma NoDup_keep_first seen l : NoDup (keep_first seen l).
Proof.
  revert seen. induction l as [|y l IH]; intros seen; simpl.
  - constructor.
  - destruct (decide (y ∈ seen)); [apply IH|].
    constructor; [|apply IH].
    rewrite elem_of_keep_first, not_elem_of_cons. tauto.
Qed.

Lemma keep_first_NoDup seen l :
  NoDup l → (∀ x, x ∈ l → x ∉ seen) → keep_first seen l = l.
Proof.
  revert seen. induction l as [|y l IH]; intros seen Hnd Hseen; simpl.
  - done.
  - apply NoDup_cons in Hnd as [Hy Hnd].
    destruct (decide (y ∈ seen)) as [Hin|_].
    + exfalso. apply (Hseen y); [left|done].
    + f_equal. apply IH; [done|].
      intros x Hx. rewrite not_elem_of_cons. split.
      * intros ->. done.
      * apply Hseen. by right.
Qed.

Lemma length_keep_first seen l : length (keep_first seen l) ≤ length l.
Proof.
  revert seen. induction l as [|y l IH]; intros seen; simpl; [lia|].
  destruct (decide (y ∈ seen)); simpl.
  - specialize (IH seen). lia.
  - specialize (IH (y :: seen)). lia.
Qed.

Lemma count_cons k x l :
  count k (x :: l) = (if decide (x = k) then 1 else 0) + count k l.
Proof.
  unfold count. rewrite filter_cons. by destruct (decide (x = k)).
Qed.

Lemma count_pos k l : k ∈ l → 0 < count k l.
Proof.
  induction 1 as [k l|k y l _ IH]; rewrite count_cons.
  - rewrite decide_True by done. lia.
  - lia.
Qed.

Lemma elem_of_frequencies k n l :
  (k, n) ∈ frequencies l ↔ k ∈ l ∧ n = count k l.
Proof.
  unfold frequencies. rewrite list_elem_of_fmap. split.
  - intros (k' & [= -> ->] & Hk). apply elem_of_keep_first in Hk. tauto.
  - intros [Hk ->]. exists k. split; [done|].
    apply elem_of_keep_first. split; [done|]. apply not_elem_of_nil.
Qed.

Lemma frequencies_keys l : (frequencies l).*1 = keep_first [] l.
Proof.
  unfold frequencies. rewrite <- list_fmap_compose.
  rewrite <- (list_fmap_id (keep_first [] l)) at 2. by apply list_fmap_ext.
Qed.

Lemma NoDup_frequencies_keys l : NoDup (frequencies l).*1.
Proof. rewrite frequencies_keys. apply NoDup_keep_first. Qed.

(** The counts of distinct keys add up to the number of elements that are
    among the keys. *)
Lemma sum_counts ks l :
  NoDup ks →
  sum_list ((λ k, count k l) <$> ks) = length (filter (λ x, x ∈ ks) l).
Proof.
  intros Hnd. induction l as [|x l IH].
  - rewrite (sum_list_fmap_same 0); [simpl; lia|].
    by apply Forall_forall.
  - rewrite filter_cons.
    assert (sum_list ((λ k, count k (x :: l)) <$> ks)
            = (if decide (x ∈ ks) then 1 else 0)
              + sum_list ((λ k, count k l) <$> ks)) as ->.
    { clear IH. induction ks as [|k ks IHk]; [done|].
      apply NoDup_cons in Hnd as [Hk Hnd].
      rewrite !fmap_cons, !sum_list_cons, count_cons, (IHk Hnd).
      destruct (decide (x = k)) as [->|Hne].
      - rewrite (decide_True (P := k ∈ k :: ks)) by left.
        rewrite (decide_False (P := k ∈ ks)) by done. lia.
      - destruct (decide (x ∈ ks)) as [Hin|Hin].
        + rewrite (decide_True (P := x ∈ k :: ks)) by (by right). lia.
        + rewrite (decide_False (P := x ∈ k :: ks)); [lia|].
          rewrite not_elem_of_cons. done. }
    rewrite IH. destruct (decide (x ∈ ks)); simpl; lia.
Qed.

Lemma sum_frequencies l : sum_list (frequencies l).*2 = length l.
Proof.
  unfold frequencies. rewrite <- list_fmap_compose.
  change (sum_list ((λ k, count k l) <$> keep_first [] l) = length l).
  rewrite sum_counts by apply NoDup_keep_first.
  f_equal. apply filter_all, Forall_forall. intros x Hx.
  apply elem_of_keep_first. split; [done|]. apply not_elem_of_nil.
Qed.

End list_facts.

Lemma sum_list_Permutation (l1 l2 : list nat) :
  l1 ≡ₚ l2 → sum_list l1 = sum_list l2.
Proof.
  induction 1 as [|n l1 l2 _ IH|n m l|l1 l2 l3 _ IH1 _ IH2];
    rewrite ?sum_list_cons; lia.
Qed.

Lemma sum_list_take_le (n : nat) (l : list nat) :
  sum_list (take n l) ≤ sum_list l.
Proof.
  revert n. induction l as [|m l IH]; intros [|n]; simpl; try lia.
  specialize (IH n). lia.
Qed.

Section stable_sort_facts.
Context {A : Type} (R : relation A) `{!RelDecision R}.
Implicit Types (x : A) (l : list A).

Lemma insert_sorted_Permutation x l : insert_sorted R x l ≡ₚ x :: l.
Proof.
  induction l as [|y l IH]; simpl; [done|].
  destruct (decide (R x y)); [done|].
  rewrite IH. apply Permutation_swap.
Qed.

Lemma stable_sort_Permutation l : stable_sort R l ≡ₚ l.
Proof.
  induction l as [|x l IH]; simpl; [done|].
  by rewrite insert_sorted_Permutation, IH.
Qed.

Lemma elem_of_stable_sort x l : x ∈ stable_sort R l ↔ x ∈ l.
Proof. by rewrite stable_sort_Permutation. Qed.

Lemma HdRel_insert_sorted z x l :
  R z x → HdRel R z l → HdRel R z (insert_sorted R x l).
Proof.
  intros Hzx Hl. destruct l as [|y l]; simpl; [by constructor|].
  destruct (decide (R x y)); constructor; [done|].
  by inversion Hl.
Qed.

Lemma Sorted_insert_sorted `{!Total R} x l :
  Sorted R l → Sorted R (insert_sorted R x l).
Proof.
  induction 1 as [|y l Hl IH Hhd]; simpl.
  - by repeat constructor.
  - destruct (decide (R x y)) as [Hxy|Hxy].
    + constructor; [by constructor|by constructor].
    + constructor; [done|].
      apply HdRel_insert_sorted; [|done].
      by destruct (total R x y).
Qed.

Lemma Sorted_stable_sort `{!Total R} l : Sorted R (stable_sort R l).
Proof.
  induction l as [|x l IH]; simpl; [constructor|].
  by apply Sorted_insert_sorted.
Qed.

Lemma StronglySorted_stable_sort `{!Transitive R, !Total R} l :
  StronglySorted R (stable_sort R l).
Proof. apply Sorted_StronglySorted; [done|]. apply Sorted_stable_sort. Qed.

End stable_sort_facts.

Global Instance by_count_desc_total : Total by_count_desc.
Proof. intros a b. unfold by_count_desc. lia. Qed.

Global Instance by_count_desc_trans : Transitive by_count_desc.
Proof. intros a b c. unfold by_count_desc. lia. Qed.

Lemma ts_lt_trans (a b c : Timestamp) : ts_lt a b → ts_lt b c → ts_lt a c.
Proof. unfold ts_lt. lia. Qed.

Lemma ts_le_total (a b : Timestamp) : ts_le a b ∨ ts_le b a.
Proof.
  destruct (decide (a = b)) as [->|Hne]; [left; by right|].
  assert (ts_lt a b ∨ ts_lt b a) as [?|?]; [|left; by left|right; by left].
  destruct a as [y1 m1 d1 n1], b as [y2 m2 d2 n2]. unfold ts_lt; simpl.
  assert (¬ (y1 = y2 ∧ m1 = m2 ∧ d1 = d2 ∧ n1 = n2)) by
    (intros (-> & -> & -> & ->); done).
  lia.
Qed.

Global Instance key_le_total : Total key_le.
Proof.
  intros [a|] [b|]; simpl; try tauto. apply ts_le_total.
Qed.

Global Instance key_le_trans : Transitive key_le.
Proof.
  intros [a|] [b|] [c|]; simpl; try tauto.
  intros [Hab| ->] [Hbc| ->]; unfold ts_le; eauto using ts_lt_trans.
Qed.

Global Instance by_month_total : Total by_month.
Proof. intros a b. apply (total key_le). Qed.

Global Instance by_month_trans : Transitive by_month.
Proof. intros a b c. apply (transitivity (R := key_le)). Qed.

(** ** The script monad *)

Lemma result_bind_ok {A B} (f : A → result B) (a : A) : (Ok a ≫= f) = f a.
Proof. done. Qed.

Lemma bind_done {A B} (f : A → M B) (ev : list event) (a : A) :
  ((ev, Done a) ≫= f) = (ev ++ (f a).1, (f a).2).
Proof. unfold mbind, M_bind. by destruct (f a). Qed.

Lemma bind_lift_ok {A B} (f : A → M B) (a : A) : (lift (Ok a) ≫= f) = f a.
Proof. unfold lift. rewrite bind_done. by destruct (f a). Qed.

Lemma bind_inv {A B} (f : A → M B) (m : M A) ev (b : B) :
  (m ≫= f) = (ev, Done b) →
  ∃ ev1 a ev2, m = (ev1, Done a) ∧ f a = (ev2, Done b) ∧ ev = ev1 ++ ev2.
Proof.
  destruct m as [ev1 [a| |]]; [|done..].
  rewrite bind_done. destruct (f a) as [ev2 o] eqn:Hf. simpl.
  intros [= <- ->]. eauto 6.
Qed.

Lemma lift_inv {A} (r : result A) ev (a : A) :
  lift r = (ev, Done a) → r = Ok a ∧ ev = [].
Proof. destruct r; simpl; by intros [= <- <-]. Qed.

(** ** Frames *)

Lemma get_column_ok (df : DataFrame) (c : string) :
  c ∈ columns df → get_column df c = Ok ((λ r, r !! c) <$> rows df).
Proof. intros Hc. unfold get_column. by rewrite decide_True. Qed.

Lemma get_column_inv (df : DataFrame) (c : string) (s : Series) :
  get_column df c = Ok s →
  c ∈ columns df ∧ s = (λ r, r !! c) <$> rows df.
Proof. unfold get_column. case_decide; [|done]. by intros [= <-]. Qed.

Lemma rows_set_column_own (c : string) (f : gmap string value → option value)
    (df : DataFrame) :
  rows (set_column c (f <$> rows df) df)
  = (λ r, partial_alter (λ _, f r) c r) <$> rows df.
Proof. simpl. by rewrite zip_with_fmap_l, zip_with_diag. Qed.

Lemma elem_of_columns_set_column (c c' : string) (s : Series) (df : DataFrame) :
  c' ∈ columns (set_column c s df) ↔ c' = c ∨ c' ∈ columns df.
Proof.
  simpl. case_decide as Hc.
  - split; [by right|]. by intros [->|].
  - rewrite elem_of_app, list_elem_of_singleton. tauto.
Qed.

Section Properties.

Variable parse_datetime : string → option Timestamp.
Variable epoch_datetime : Z → option Timestamp.

Local Abbreviation to_dt := (to_datetime parse_datetime epoch_datetime).
Local Abbreviation with_dt := (with_datetime parse_datetime epoch_datetime).
Local Abbreviation parse_od :=
  (parse_opened_date parse_datetime epoch_datetime).
Local Abbreviation load :=
  (load_and_clean_data parse_datetime epoch_datetime).
Local Abbreviation monthly := (monthly_cases parse_datetime).
Local Abbreviation read_back := (labels_read_back parse_datetime).
Local Abbreviation table := (monthly_table parse_datetime).
Local Abbreviation run := (script parse_datetime epoch_datetime).
Local Abbreviation page := (dashboard parse_datetime).

Implicit Types (df mid pre out : DataFrame) (r : gmap string value).

Lemma to_datetime_Some (o : option value) (v : value) :
  to_dt o = Some v → ∃ t, v = VTime t.
Proof.
  destruct o as [[s|n|t]|]; simpl; [| |by intros [= <-]; eauto|done].
  - destruct (parse_datetime s); simpl; [|done]. intros [= <-]. eauto.
  - destruct (epoch_datetime n); simpl; [|done]. intros [= <-]. eauto.
Qed.

Lemma parse_opened_date_ok df :
  "Opened Date" ∈ columns df →
  parse_od df
  = Ok {| columns := columns df;
          rows := filter (λ r, is_Some (r !! "Opened Date"))
                    (with_dt <$> rows df) |}.
Proof.
  intros Hc. unfold parse_opened_date.
  rewrite (get_column_ok _ _ Hc). simpl. unfold dropna. f_equal. f_equal.
  - simpl. by rewrite decide_True.
  - simpl. by rewrite !zip_with_fmap_l, zip_with_diag.
Qed.

Lemma parse_opened_date_inv df mid :
  parse_od df = Ok mid →
  "Opened Date" ∈ columns df ∧ columns mid = columns df ∧
  rows mid = filter (λ r, is_Some (r !! "Opened Date"))
               (with_dt <$> rows df).
Proof.
  intros Hmid. destruct (decide ("Opened Date" ∈ columns df)) as [Hc|Hc].
  - rewrite (parse_opened_date_ok _ Hc) in Hmid. by injection Hmid as <-.
  - unfold parse_opened_date, get_column in Hmid.
    by rewrite decide_False in Hmid.
Qed.

Lemma parse_opened_date_rows df mid r :
  parse_od df = Ok mid → r ∈ rows mid →
  ∃ r0 t, r0 ∈ rows df ∧ to_dt (r0 !! "Opened Date") = Some (VTime t)
          ∧ r = <["Opened Date" := VTime t]> r0.
Proof.
  intros (_ & _ & ->)%parse_opened_date_inv.
  rewrite list_elem_of_filter, list_elem_of_fmap.
  intros [[v Hv] (r0 & -> & Hr0)]. unfold with_datetime in *.
  rewrite lookup_partial_alter_eq in Hv.
  destruct (to_datetime_Some _ _ Hv) as [t ->].
  exists r0, t. split; [done|]. split; [done|]. by rewrite Hv.
Qed.

Lemma all_null_spec (c : string) df :
  all_null c df = true ↔ ∀ r, r ∈ rows df → r !! c = None.
Proof.
  unfold all_null. induction (rows df) as [|r0 l IH]; simpl.
  - split; [|done]. intros _ r Hr. by apply elem_of_nil in Hr.
  - rewrite andb_true_iff, IH, bool_decide_eq_true. split.
    + intros [H0 Hl] r [->|Hr]%elem_of_cons; auto.
    + intros Hall. split; [apply Hall; left|].
      intros r Hr. apply Hall. by right.
Qed.

Lemma prune_store_cases mid :
  ("Store" ∈ columns mid ∧ (∀ r, r ∈ rows mid → r !! "Store" = None) ∧
   prune_store mid
   = ([SidebarInfo store_dropped_message], Done (drop_column "Store" mid)))
  ∨ (¬ ("Store" ∈ columns mid ∧ ∀ r, r ∈ rows mid → r !! "Store" = None) ∧
     prune_store mid = ([], Done mid)).
Proof.
  unfold prune_store.
  destruct (bool_decide ("Store" ∈ columns mid)) eqn:Hc;
    [apply bool_decide_eq_true in Hc|apply bool_decide_eq_false in Hc];
    simpl; [|right; split; [tauto|done]].
  destruct (all_null "Store" mid) eqn:Hn.
  - left. pose proof (proj1 (all_null_spec _ _) Hn). done.
  - right. split; [|done]. intros [_ Hall].
    apply (proj2 (all_null_spec _ _)) in Hall. congruence.
Qed.

Lemma remove_duplicates_eq pre :
  remove_duplicates pre
  = ([SidebarInfo
        (duplicates_notice (n_rows pre) (n_rows (drop_duplicates pre)))],
     Done (drop_duplicates pre)).
Proof.
  unfold remove_duplicates, duplicates_notice.
  by destruct (bool_decide _).
Qed.

Lemma load_ok df mid ev1 pre :
  parse_od df = Ok mid → prune_store mid = (ev1, Done pre) →
  load (ReadOk df)
  = (ev1 ++ [SidebarInfo
               (duplicates_notice (n_rows pre)
                  (n_rows (drop_duplicates pre)))],
     Done (drop_duplicates pre)).
Proof.
  intros Hmid Hpre. unfold load_and_clean_data. simpl read_or_halt.
  change (mret df : M DataFrame) with (lift (Ok df)).
  rewrite bind_lift_ok, Hmid, bind_lift_ok, Hpre, bind_done.
  by rewrite remove_duplicates_eq.
Qed.

Lemma load_inv src ev out :
  load src = (ev, Done out) →
  ∃ df mid ev1 pre,
    src = ReadOk df ∧ parse_od df = Ok mid ∧
    prune_store mid = (ev1, Done pre) ∧ out = drop_duplicates pre ∧
    ev = ev1 ++ [SidebarInfo
                   (duplicates_notice (n_rows pre) (n_rows out))].
Proof.
  unfold load_and_clean_data.
  intros (ev0 & df & ev' & Hread & Hrest & ->)%bind_inv.
  apply bind_inv in Hrest as (ev1 & mid & ev'' & Hmid & Hrest & ->).
  apply bind_inv in Hrest as (ev2 & pre & ev3 & Hpre & Hdup & ->).
  apply lift_inv in Hmid as [Hmid ->].
  rewrite remove_duplicates_eq in Hdup. injection Hdup as <- <-.
  destruct src as [df'|e]; simpl in Hread.
  - injection Hread as <- <-. exists df', mid, ev2, pre. done.
  - destruct e; simpl in Hread; discriminate.
Qed.

Lemma load_total df :
  "Opened Date" ∈ columns df → ∃ ev out, load (ReadOk df) = (ev, Done out).
Proof.
  intros Hc. pose proof (parse_opened_date_ok df Hc) as Hmid.
  destruct (prune_store_cases
              {| columns := columns df;
                 rows := filter (λ r, is_Some (r !! "Opened Date"))
                           (with_dt <$> rows df) |})
    as [(_ & _ & Hp)|[_ Hp]]; rewrite (load_ok _ _ _ _ Hmid Hp); eauto.
Qed.


Lemma length_dated_rows (l : list (gmap string value)) :
  length (filter (λ r, is_Some (r !! "Opened Date")) (with_dt <$> l))
  = length (filter (λ r0, is_Some (to_dt (r0 !! "Opened Date"))) l).
Proof.
  induction l as [|r0 l IH]; [done|].
  assert (is_Some (with_dt r0 !! "Opened Date")
          ↔ is_Some (to_dt (r0 !! "Opened Date"))) as Hiff.
  { unfold with_datetime. by rewrite lookup_partial_alter_eq. }
  rewrite fmap_cons, !filter_cons.
  repeat case_decide; simpl; try lia; tauto.
Qed.

Lemma prune_store_inv mid ev pre :
  prune_store mid = (ev, Done pre) →
  (pre = mid ∨ pre = drop_column "Store" mid) ∧
  n_rows pre = n_rows mid ∧
  ∀ r, r ∈ rows pre →
    ∃ r1, r1 ∈ rows mid ∧
          ∀ c, c ∈ columns pre → r !! c = r1 !! c.
Proof.
  intros Hp.
  destruct (prune_store_cases mid) as [(_ & _ & Hp')|[_ Hp']];
    rewrite Hp' in Hp; injection Hp as <- <-.
  - split; [by right|]. split; [apply length_fmap|].
    intros r (r1 & -> & Hr1)%list_elem_of_fmap. exists r1. split; [done|].
    intros c [Hc _]%list_elem_of_filter. by apply lookup_delete_ne.
  - split; [by left|]. split; [done|]. eauto.
Qed.

Lemma opened_date_kept df mid ev pre :
  parse_od df = Ok mid → prune_store mid = (ev, Done pre) →
  "Opened Date" ∈ columns pre.
Proof.
  intros (Hc & Hcols & _)%parse_opened_date_inv [[->| ->] _]%prune_store_inv.
  - by rewrite Hcols.
  - simpl. apply list_elem_of_filter. split; [done|]. by rewrite Hcols.
Qed.

(** Where a row of the cleaned frame comes from. *)
Lemma cleaned_row_origin src ev out r :
  load src = (ev, Done out) → r ∈ rows out →
  ∃ df r0 t,
    src = ReadOk df ∧ r0 ∈ rows df ∧
    to_dt (r0 !! "Opened Date") = Some (VTime t) ∧
    r !! "Opened Date" = Some (VTime t) ∧
    ∀ c, c ∈ columns out → c ≠ "Opened Date" → r !! c = r0 !! c.
Proof.
  intros (df & mid & ev1 & pre & -> & Hmid & Hpre & -> & _)%load_inv Hr.
  simpl in Hr. apply elem_of_keep_first in Hr as [Hr _].
  pose proof (opened_date_kept _ _ _ _ Hmid Hpre) as Hod.
  destruct (prune_store_inv _ _ _ Hpre) as (_ & _ & Hrows).
  destruct (Hrows r Hr) as (r1 & Hr1 & Heq).
  destruct (parse_opened_date_rows _ _ _ Hmid Hr1) as (r0 & t & Hr0 & Ht & ->).
  exists df, r0, t. repeat split; [done..| |].
  - by rewrite (Heq _ Hod), lookup_insert_eq.
  - intros c Hc Hne. simpl in Hc. by rewrite (Heq _ Hc), lookup_insert_ne.
Qed.

Lemma cleaned_dated src ev out r :
  load src = (ev, Done out) → r ∈ rows out →
  ∃ t, r !! "Opened Date" = Some (VTime t).
Proof.
  intros Hload Hr.
  destruct (cleaned_row_origin _ _ _ _ Hload Hr) as (df & r0 & t & H).
  exists t. tauto.
Qed.

(** C5: every row of the cleaned dataset holds a parsed opened timestamp and
    stems from an input row whose opened date parses; a row whose opened
    date fails to parse leaves no row at all, so the cleaned dataset has at
    most as many rows as the input has rows that parse. *)
Theorem cleaned_rows_have_parsed_timestamp df :
  "Opened Date" ∈ columns df →
  ∃ ev out,
    load (ReadOk df) = (ev, Done out) ∧
    (∀ r, r ∈ rows out →
       ∃ r0 t, r0 ∈ rows df ∧
               to_dt (r0 !! "Opened Date") = Some (VTime t) ∧
               r !! "Opened Date" = Some (VTime t) ∧
               ∀ c, c ∈ columns out → c ≠ "Opened Date" →
                    r !! c = r0 !! c) ∧
    n_rows out
    ≤ length (filter (λ r0, is_Some (to_dt (r0 !! "Opened Date")))
                (rows df)).
Proof.
  intros Hc. destruct (load_total df Hc) as (ev & out & Hload).
  exists ev, out. split; [done|]. split.
  - intros r Hr.
    destruct (cleaned_row_origin _ _ _ _ Hload Hr)
      as (df' & r0 & t & Heq & H).
    injection Heq as <-. exists r0, t. done.
  - apply load_inv in Hload
      as (df' & mid & ev1 & pre & Heq & Hmid & Hpre & -> & _).
    injection Heq as <-. destruct (prune_store_inv _ _ _ Hpre) as (_ & Hn & _).
    apply parse_opened_date_inv in Hmid as (_ & _ & Hrows).
    unfold n_rows in *. simpl.
    etrans; [apply length_keep_first|].
    by rewrite Hn, Hrows, length_dated_rows.
Qed.


Lemma wf_frame_lookup df r c :
  wf_frame df → r ∈ rows df → is_Some (r !! c) → c ∈ columns df.
Proof.
  intros Hwf Hr Hc. unfold wf_frame in Hwf.
  rewrite Forall_forall in Hwf. specialize (Hwf r Hr).
  apply elem_of_dom in Hc. apply Hwf in Hc.
  by apply elem_of_list_to_set in Hc.
Qed.

Lemma wf_frame_intro df :
  (∀ r c, r ∈ rows df → is_Some (r !! c) → c ∈ columns df) → wf_frame df.
Proof.
  intros H. apply Forall_forall. intros r Hr c Hc%elem_of_dom.
  apply elem_of_list_to_set. eauto.
Qed.

Lemma load_wf df ev out :
  wf_frame df → load (ReadOk df) = (ev, Done out) → wf_frame out.
Proof.
  intros Hwf Hload. apply wf_frame_intro. intros r c Hr Hc.
  destruct (decide (c = "Opened Date")) as [->|Hne].
  - apply load_inv in Hload as (? & mid & ? & pre & _ & Hm & Hp & -> & _).
    apply (opened_date_kept _ _ _ _ Hm Hp).
  - destruct (cleaned_row_origin _ _ _ _ Hload Hr)
      as (df' & r0 & t & Heq & Hr0 & _ & _ & Hother).
    injection Heq as <-.
    apply load_inv in Hload as (? & mid & ? & pre & Heq & Hm & Hp & -> & _).
    injection Heq as <-.
    apply elem_of_keep_first in Hr as [Hr _].
    apply parse_opened_date_inv in Hm as (_ & Hcols & Hrows).
    destruct (prune_store_inv _ _ _ Hp) as ([->| ->] & _ & _); simpl in *.
    + rewrite Hrows in Hr.
      apply list_elem_of_filter in Hr as [_ (r1 & -> & Hr1)%list_elem_of_fmap].
      unfold with_datetime in Hc. rewrite lookup_partial_alter_ne in Hc by done.
      rewrite Hcols. by apply (wf_frame_lookup df r1).
    + apply list_elem_of_fmap in Hr as (r1 & -> & Hr1).
      destruct (decide (c = "Store")) as [->|Hns].
      { rewrite lookup_delete_eq in Hc. by destruct Hc. }
      rewrite lookup_delete_ne in Hc by done.
      apply list_elem_of_filter. split; [done|].
      rewrite Hrows in Hr1.
      apply list_elem_of_filter in Hr1 as [_ (r2 & -> & Hr2)%list_elem_of_fmap].
      unfold with_datetime in Hc. rewrite lookup_partial_alter_ne in Hc by done.
      rewrite Hcols. by apply (wf_frame_lookup df r2).
Qed.

Lemma keep_first_sublist {A} `{EqDecision A} (seen l : list A) :
  keep_first seen l `sublist_of` l.
Proof.
  revert seen. induction l as [|x l IH]; intros seen; simpl; [done|].
  destruct (decide (x ∈ seen)).
  - by apply sublist_cons.
  - by apply sublist_skip.
Qed.

(** C6: the rows of the cleaned dataset are pairwise different on some
    remaining column; they are the rows left by the earlier steps with each
    group of identical rows collapsed to its first member; and the last
    notice sent to the side panel reports the number of rows removed. *)
Theorem cleaned_rows_distinct_and_reported df :
  wf_frame df → "Opened Date" ∈ columns df →
  ∃ ev pre out,
    (lift (parse_od df) ≫= prune_store) = (ev, Done pre) ∧
    load (ReadOk df)
    = (ev ++ [SidebarInfo (duplicates_notice (n_rows pre) (n_rows out))],
       Done out) ∧
    columns out = columns pre ∧
    rows out `sublist_of` rows pre ∧
    (∀ r, r ∈ rows pre → r ∈ rows out) ∧
    NoDup (rows out) ∧
    (∀ i j r1 r2,
       i ≠ j → rows out !! i = Some r1 → rows out !! j = Some r2 →
       ¬ ∀ c, c ∈ columns out → r1 !! c = r2 !! c) ∧
    (n_rows out < n_rows pre →
     duplicates_notice (n_rows pre) (n_rows out)
     = "Removed " +:+ pretty (n_rows pre - n_rows out)
       +:+ " duplicate rows.") ∧
    (¬ n_rows out < n_rows pre →
     n_rows out = n_rows pre ∧
     duplicates_notice (n_rows pre) (n_rows out)
     = "No duplicate rows found.").
Proof.
  intros Hwf Hc. destruct (load_total df Hc) as (ev & out & Hload).
  pose proof (load_wf _ _ _ Hwf Hload) as Hwf'.
  apply load_inv in Hload as Hinv.
  destruct Hinv as (df' & mid & ev1 & pre & Heq & Hmid & Hpre & -> & ->).
  injection Heq as <-.
  exists ev1, pre, (drop_duplicates pre).
  assert (NoDup (rows (drop_duplicates pre))) as Hnd
    by apply NoDup_keep_first.
  split; [by rewrite Hmid, bind_lift_ok|]. split; [done|].
  split; [done|]. split; [apply keep_first_sublist|].
  split; [|split; [done|split; [|split]]].
  - intros r Hr. apply elem_of_keep_first. split; [done|].
    apply not_elem_of_nil.
  - intros i j r1 r2 Hij H1 H2 Hsame. apply Hij.
    assert (r1 = r2) as <-; [|by eapply NoDup_lookup].
    apply map_eq. intros c.
    destruct (decide (c ∈ columns (drop_duplicates pre))) as [Hin|Hnin];
      [by apply Hsame|].
    apply list_elem_of_lookup_2 in H1, H2.
    assert (∀ r, r ∈ rows (drop_duplicates pre) → r !! c = None) as Hnone.
    { intros r Hr. apply eq_None_not_Some. intros Hs. apply Hnin.
      by apply (wf_frame_lookup _ r). }
    by rewrite !Hnone.
  - intros Hlt. unfold duplicates_notice, duplicates_message.
    by rewrite bool_decide_eq_true_2.
  - intros Hlt. unfold duplicates_notice.
    rewrite bool_decide_eq_false_2 by done. split; [|done].
    pose proof (length_keep_first [] (rows pre)).
    unfold n_rows in *. simpl in *. lia.
Qed.


Lemma with_datetime_dated r t :
  r !! "Opened Date" = Some (VTime t) → with_dt r = r.
Proof.
  intros Hr. unfold with_datetime. apply partial_alter_id. by rewrite Hr.
Qed.

(** Lines 17-18 leave a frame alone when every row already holds a
    timestamp. *)
Lemma parse_opened_date_dated df :
  "Opened Date" ∈ columns df →
  (∀ r, r ∈ rows df → ∃ t, r !! "Opened Date" = Some (VTime t)) →
  parse_od df = Ok df.
Proof.
  intros Hc Hdated. rewrite parse_opened_date_ok by done.
  destruct df as [cols rs]. simpl in *. do 2 f_equal.
  induction rs as [|r rs IH]; [done|].
  destruct (Hdated r) as [t Ht]; [left|].
  rewrite fmap_cons, (with_datetime_dated _ _ Ht), filter_cons.
  rewrite decide_True by (by rewrite Ht). f_equal.
  apply IH. intros r' Hr'. apply Hdated. by right.
Qed.

Lemma some_store_value (l : list (gmap string value)) :
  ¬ (∀ r, r ∈ l → r !! "Store" = None) →
  ∃ r, r ∈ l ∧ is_Some (r !! "Store").
Proof.
  induction l as [|r l IH]; intros Hnot.
  - exfalso. apply Hnot. intros r Hr. by apply elem_of_nil in Hr.
  - destruct (r !! "Store") as [v|] eqn:Hr.
    + exists r. split; [left|]. by rewrite Hr.
    + destruct IH as (r' & Hr' & Hs).
      * intros Hall. apply Hnot. intros r' [->|Hr']%elem_of_cons; auto.
      * exists r'. split; [by right|done].
Qed.

(** C7: cleaning an already cleaned dataset returns that same dataset (so
    the same number of rows), and reports that nothing was removed. *)
Theorem cleaning_idempotent df :
  "Opened Date" ∈ columns df →
  ∃ ev out,
    load (ReadOk df) = (ev, Done out) ∧
    load (ReadOk out) = ([SidebarInfo no_duplicates_message], Done out).
Proof.
  intros Hc. destruct (load_total df Hc) as (ev & out & Hload).
  exists ev, out. split; [done|].
  assert (∀ r, r ∈ rows out → ∃ t, r !! "Opened Date" = Some (VTime t))
    as Hdated by (intros r; by apply (cleaned_dated _ _ _ _ Hload)).
  apply load_inv in Hload
    as (df' & mid & ev1 & pre & _ & Hmid & Hpre & -> & _).
  pose proof (opened_date_kept _ _ _ _ Hmid Hpre) as Hod.
  assert (prune_store (drop_duplicates pre)
          = ([], Done (drop_duplicates pre))) as Hprune.
  { destruct (prune_store_cases (drop_duplicates pre))
      as [(Hs & Hnull & _)|[_ H]]; [exfalso|done].
    destruct (prune_store_cases mid) as [(_ & _ & Hp)|[Hnot Hp]];
      rewrite Hp in Hpre; injection Hpre as <- <-.
    - simpl in Hs. apply list_elem_of_filter in Hs as [Hs _]. done.
    - simpl in Hs. destruct (some_store_value (rows mid)) as (r & Hr & Hv).
      { intros Hall. apply Hnot. done. }
      rewrite Hnull in Hv; [by destruct Hv|].
      simpl. apply elem_of_keep_first. split; [done|].
      apply not_elem_of_nil. }
  rewrite (load_ok _ _ _ _
             (parse_opened_date_dated (drop_duplicates pre) Hod Hdated)
             Hprune).
  assert (drop_duplicates (drop_duplicates pre) = drop_duplicates pre)
    as ->.
  { unfold drop_duplicates. simpl. f_equal.
    apply keep_first_NoDup; [apply NoDup_keep_first|].
    intros r _. apply not_elem_of_nil. }
  unfold duplicates_notice.
  rewrite bool_decide_eq_false_2 by lia. done.
Qed.

(** C2 (as amended): only the column named ['Store'] is pruned.  It is
    removed, and the removal reported once, exactly when it is present and
    absent in every row left by the timestamp filter; every other column is
    kept whatever it holds.  A ['Store'] column of the cleaned dataset
    therefore has a value in some row. *)
Theorem only_store_column_pruned df :
  "Opened Date" ∈ columns df →
  ∃ mid ev out,
    parse_od df = Ok mid ∧
    load (ReadOk df) = (ev, Done out) ∧
    (("Store" ∈ columns df ∧
      (∀ r, r ∈ rows mid → r !! "Store" = None) ∧
      columns out = filter (λ c, c ≠ "Store") (columns df) ∧
      ev = [SidebarInfo store_dropped_message;
            SidebarInfo (duplicates_notice (n_rows mid) (n_rows out))])
     ∨ (¬ ("Store" ∈ columns df ∧
           ∀ r, r ∈ rows mid → r !! "Store" = None) ∧
        columns out = columns df ∧
        ev = [SidebarInfo (duplicates_notice (n_rows mid) (n_rows out))]))
    ∧ ("Store" ∈ columns out →
       ∃ r, r ∈ rows out ∧ is_Some (r !! "Store")).
Proof.
  intros Hc. destruct (load_total df Hc) as (ev & out & Hload).
  apply load_inv in Hload as Hinv.
  destruct Hinv as (df' & mid & ev1 & pre & Heq & Hmid & Hpre & -> & ->).
  injection Heq as <-.
  exists mid, (ev1 ++ [SidebarInfo
                  (duplicates_notice (n_rows pre)
                     (n_rows (drop_duplicates pre)))]),
    (drop_duplicates pre).
  split; [done|]. split; [done|].
  apply parse_opened_date_inv in Hmid as Hm. destruct Hm as (_ & Hcols & _).
  destruct (prune_store_cases mid) as [(Hs & Hnull & Hp)|[Hnot Hp]];
    rewrite Hp in Hpre; injection Hpre as <- <-; rewrite Hcols in *.
  - split.
    + left. split; [done|]. split; [done|]. simpl. rewrite Hcols.
      split; [done|]. unfold n_rows. simpl. by rewrite length_fmap.
    + simpl. rewrite Hcols. intros [Hne _]%list_elem_of_filter. done.
  - split; [right; done|]. intros Hin.
    destruct (some_store_value (rows mid)) as (r & Hr & Hv).
    { intros Hall. apply Hnot. split; [|done]. by rewrite <- Hcols. }
    exists r. split; [|done]. simpl. apply elem_of_keep_first.
    split; [done|]. apply not_elem_of_nil.
Qed.


(** *** Frequency tables of a column *)

Lemma count_omap_id (v : value) (s : Series) :
  count v (omap id s) = count (Some v) s.
Proof.
  induction s as [|[w|] s IH]; [done| |].
  - change (omap id (Some w :: s)) with (w :: omap id s).
    rewrite !count_cons, IH.
    destruct (decide (w = v)) as [->|Hne].
    + by rewrite decide_True.
    + rewrite decide_False; [done|]. by intros [= ->].
  - change (omap id (None :: s)) with (omap id s).
    rewrite count_cons, IH. by rewrite decide_False.
Qed.

Lemma length_omap_id (s : Series) :
  length (omap id s) = length (filter is_Some s).
Proof.
  induction s as [|[w|] s IH]; [done| |].
  - change (omap id (Some w :: s)) with (w :: omap id s).
    rewrite filter_cons, decide_True by done. simpl. by rewrite IH.
  - change (omap id (None :: s)) with (omap id s).
    rewrite filter_cons, decide_False; [done|]. by intros [??].
Qed.

Lemma count_column df (c : string) (v : value) :
  count (Some v) ((λ r, r !! c) <$> rows df) = occurrences c v df.
Proof.
  unfold occurrences, count. induction (rows df) as [|r l IH]; [done|].
  rewrite fmap_cons, !filter_cons.
  destruct (decide (r !! c = Some v)); simpl; by rewrite IH.
Qed.

Lemma value_counts_Permutation (s : Series) :
  value_counts s ≡ₚ frequencies (omap id s).
Proof. apply stable_sort_Permutation. Qed.

Lemma value_counts_sorted (s : Series) :
  StronglySorted by_count_desc (value_counts s).
Proof. apply StronglySorted_stable_sort; apply _. Qed.

Lemma sum_value_counts (s : Series) :
  sum_list (value_counts s).*2 = length (filter is_Some s).
Proof.
  rewrite (sum_list_Permutation _ (frequencies (omap id s)).*2).
  - by rewrite sum_frequencies, length_omap_id.
  - by rewrite value_counts_Permutation.
Qed.

Lemma value_counts_full df (c : string) (s : Series) :
  get_column df c = Ok s → full_table c df (value_counts s).
Proof.
  intros [_ ->]%get_column_inv. split.
  - rewrite value_counts_Permutation. apply NoDup_frequencies_keys.
  - intros v n. rewrite value_counts_Permutation, elem_of_frequencies.
    rewrite count_omap_id, count_column, list_elem_of_omap. split.
    + intros [(o & Ho & Hv) ->]. simpl in Hv. subst o. split; [|done].
      rewrite <- count_column. by apply count_pos.
    + intros [Hpos ->]. split; [|done]. exists (Some v). split; [|done].
      rewrite <- count_column in Hpos. unfold count in Hpos.
      destruct (filter _ _) as [|o l] eqn:Hf; [simpl in Hpos; lia|].
      assert (o ∈ filter (λ x, x = Some v) ((λ r, r !! c) <$> rows df))
        as [-> Ho]%list_elem_of_filter by (rewrite Hf; left).
      done.
Qed.

Lemma head_top_table df (c : string) (k : nat) (t : list (value * nat)) :
  full_table c df t → StronglySorted by_count_desc t →
  top_table k c df (head k t).
Proof.
  intros [Hnd Hfull] Hsorted. unfold head.
  pose proof (take_drop k t) as Hsplit.
  split; [apply firstn_le_length|]. split; [|split; [|split]].
  - rewrite fmap_take. eapply sublist_NoDup; [done|apply sublist_take].
  - rewrite <- Hsplit in Hsorted. by apply StronglySorted_app_1_l in Hsorted.
  - intros v n Hin. apply Hfull.
    rewrite <- Hsplit. apply elem_of_app. by left.
  - intros v Hpos Hout.
    assert ((v, occurrences c v df) ∈ drop k t) as Hdrop.
    { assert ((v, occurrences c v df) ∈ t) as Hin by (by apply Hfull).
      rewrite <- Hsplit in Hin. apply elem_of_app in Hin as [Hin|Hin];
        [|done].
      exfalso. apply Hout. apply list_elem_of_fmap.
      by exists (v, occurrences c v df). }
    split.
    + apply length_take_le.
      destruct (decide (k ≤ length t)) as [|Hgt]; [done|].
      rewrite drop_ge in Hdrop by lia. by apply elem_of_nil in Hdrop.
    + intros x Hx. rewrite <- Hsplit in Hsorted.
      by apply (StronglySorted_app_1_elem_of _ _ _ _ _ Hsorted Hx Hdrop).
Qed.


Lemma sum_value_counts_column df (c : string) (s : Series) :
  get_column df c = Ok s →
  sum_list (value_counts s).*2
  = length (filter (λ r, is_Some (r !! c)) (rows df)).
Proof.
  intros [_ ->]%get_column_inv. rewrite sum_value_counts.
  induction (rows df) as [|r l IH]; [done|].
  rewrite fmap_cons, !filter_cons.
  destruct (decide (is_Some (r !! c))); simpl; by rewrite IH.
Qed.

Lemma sum_head_le {A} (k : nat) (t : list (A * nat)) :
  sum_list (head k t).*2 ≤ sum_list t.*2.
Proof. unfold head. rewrite fmap_take. apply sum_list_take_le. Qed.

(** C3 (as amended): the status counts add up to the number of rows whose
    status is not absent, and the origin counts to the number of rows
    whose origin is not absent: the total number of rows when no row lacks
    the value, and no more than it in any case.  The top-10 brand and
    reason counts add up to at most the total number of rows. *)
Theorem frequency_sums df :
  "Status" ∈ columns df → "Case Origin" ∈ columns df →
  "Product: Brand" ∈ columns df → "Reason L1 desc" ∈ columns df →
  ∃ st og br rs,
    status_counts df = Ok st ∧ origin_counts df = Ok og ∧
    top_brands df = Ok br ∧ top_reasons df = Ok rs ∧
    sum_list st.*2
    = length (filter (λ r, is_Some (r !! "Status")) (rows df)) ∧
    sum_list og.*2
    = length (filter (λ r, is_Some (r !! "Case Origin")) (rows df)) ∧
    ((∀ r, r ∈ rows df → is_Some (r !! "Status")) →
     sum_list st.*2 = n_rows df) ∧
    ((∀ r, r ∈ rows df → is_Some (r !! "Case Origin")) →
     sum_list og.*2 = n_rows df) ∧
    sum_list st.*2 ≤ n_rows df ∧ sum_list og.*2 ≤ n_rows df ∧
    sum_list br.*2 ≤ n_rows df ∧ sum_list rs.*2 ≤ n_rows df.
Proof.
  intros Hst Hog Hbr Hrs.
  unfold status_counts, origin_counts, top_brands, top_reasons.
  pose proof (get_column_ok _ _ Hst) as Est.
  pose proof (get_column_ok _ _ Hog) as Eog.
  pose proof (get_column_ok _ _ Hbr) as Ebr.
  pose proof (get_column_ok _ _ Hrs) as Ers.
  rewrite Est, Eog, Ebr, Ers. simpl.
  eexists _, _, _, _. do 4 (split; [reflexivity|]).
  rewrite (sum_value_counts_column _ _ _ Est),
    (sum_value_counts_column _ _ _ Eog).
  pose proof (sum_head_le 10 (value_counts ((λ r, r !! "Product: Brand")
                                             <$> rows df))) as Hb.
  pose proof (sum_head_le 10 (value_counts ((λ r, r !! "Reason L1 desc")
                                             <$> rows df))) as Hr.
  rewrite (sum_value_counts_column _ _ _ Ebr) in Hb.
  rewrite (sum_value_counts_column _ _ _ Ers) in Hr.
  unfold n_rows.
  pose proof (length_filter (λ r, is_Some (r !! "Product: Brand")) (rows df)).
  pose proof (length_filter (λ r, is_Some (r !! "Reason L1 desc")) (rows df)).
  pose proof (length_filter (λ r, is_Some (r !! "Status")) (rows df)).
  pose proof (length_filter (λ r, is_Some (r !! "Case Origin")) (rows df)).
  repeat split; try lia.
  - intros Hall. f_equal. by apply filter_all, Forall_forall.
  - intros Hall. f_equal. by apply filter_all, Forall_forall.
Qed.

(** C4: the status table and the origin table list every value of their
    column exactly once, with its number of records; the brand table and
    the reason table list at most 10 values with their numbers of records,
    in descending order of count, and no value that is left out has more
    records than a value that is listed. *)
Theorem frequency_tables df :
  "Status" ∈ columns df → "Case Origin" ∈ columns df →
  "Product: Brand" ∈ columns df → "Reason L1 desc" ∈ columns df →
  ∃ st og br rs,
    status_counts df = Ok st ∧ origin_counts df = Ok og ∧
    top_brands df = Ok br ∧ top_reasons df = Ok rs ∧
    full_table "Status" df st ∧
    full_table "Case Origin" df og ∧
    top_table 10 "Product: Brand" df br ∧
    top_table 10 "Reason L1 desc" df rs.
Proof.
  intros Hst Hog Hbr Hrs.
  unfold status_counts, origin_counts, top_brands, top_reasons.
  pose proof (get_column_ok _ _ Hst) as Est.
  pose proof (get_column_ok _ _ Hog) as Eog.
  pose proof (get_column_ok _ _ Hbr) as Ebr.
  pose proof (get_column_ok _ _ Hrs) as Ers.
  rewrite Est, Eog, Ebr, Ers. simpl.
  eexists _, _, _, _. do 4 (split; [reflexivity|]).
  split; [by apply value_counts_full|].
  split; [by apply value_counts_full|].
  split; apply head_top_table;
    auto using value_counts_full, value_counts_sorted.
Qed.


(** *** The monthly trend *)

Lemma mapM_ok {A B C} (f : B → result C) (h : A → B) (g : A → C)
    (l : list A) :
  (∀ x, x ∈ l → f (h x) = Ok (g x)) → mapM f (h <$> l) = Ok (g <$> l).
Proof.
  induction l as [|x l IH]; intros Hf; [done|].
  rewrite !fmap_cons. cbn [mapM]. rewrite (Hf x) by left.
  rewrite result_bind_ok, IH; [done|].
  intros y Hy. apply Hf. by right.
Qed.

Lemma string_length_app (s1 s2 : string) :
  String.length (s1 +:+ s2) = String.length s1 + String.length s2.
Proof. induction s1 as [|a s1 IH]; simpl; [done|]. by f_equal. Qed.

Lemma length_zeros (n : nat) : String.length (zeros n) = n.
Proof. induction n as [|n IH]; simpl; [done|]. by f_equal. Qed.

Lemma period_str_not_NaT (p : Period) : period_str p ≠ "NaT".
Proof.
  intros Heq. apply (f_equal String.length) in Heq.
  unfold period_str, zfill in Heq.
  rewrite !string_length_app, !length_zeros in Heq. simpl in Heq. lia.
Qed.

Lemma start_time_inj (p q : Period) : start_time p = start_time q → p = q.
Proof. destruct p, q. unfold start_time. simpl. by intros [= -> ->]. Qed.

Lemma zip_fmap_fst {A B C} (f : A → C) (l : list (A * B)) :
  zip ((λ x, f x.1) <$> l) l.*2 = (λ x, (f x.1, x.2)) <$> l.
Proof. induction l as [|[a b] l IH]; simpl; [done|]. by f_equal. Qed.

Lemma count_fmap {A B} `{EqDecision B} (f : A → B) (k : B) (l : list A) :
  count k (f <$> l) = length (filter (λ x, f x = k) l).
Proof.
  unfold count. induction l as [|x l IH]; [done|].
  rewrite fmap_cons, !filter_cons.
  destruct (decide (f x = k)); simpl; by rewrite IH.
Qed.

Lemma length_filter_iff {A} (P Q : A → Prop) `{!∀ x, Decision (P x)}
    `{!∀ x, Decision (Q x)} (l : list A) :
  (∀ x, x ∈ l → P x ↔ Q x) →
  length (filter P l) = length (filter Q l).
Proof.
  induction l as [|x l IH]; intros Hiff; [done|].
  rewrite !filter_cons.
  assert (P x ↔ Q x) by (apply Hiff; left).
  assert (length (filter P l) = length (filter Q l))
    by (apply IH; intros y Hy; apply Hiff; by right).
  repeat case_decide; simpl; try lia; tauto.
Qed.

Lemma dated_month_of df r :
  dated df → r ∈ rows df →
  ∃ t, r !! "Opened Date" = Some (VTime t) ∧
       month_of r = Some (to_period t) ∧
       month_label r = period_str (to_period t).
Proof.
  intros Hd Hr. destruct (Hd r Hr) as [t Ht]. exists t.
  unfold month_label, month_of. by rewrite Ht.
Qed.

Lemma read_back_row df r p :
  read_back df → r ∈ rows df → month_of r = Some p →
  parse_datetime (period_str p) = Some (start_time p).
Proof.
  unfold labels_read_back. rewrite Forall_forall.
  intros Hrb Hr Hp. specialize (Hrb r Hr). by rewrite Hp in Hrb.
Qed.

(** On the frame, two rows carry the same label exactly when they were
    opened in the same month. *)
Lemma month_label_eq_iff df r1 r2 :
  dated df → read_back df → r1 ∈ rows df → r2 ∈ rows df →
  month_label r1 = month_label r2 ↔ month_of r1 = month_of r2.
Proof.
  intros Hd Hrb H1 H2.
  destruct (dated_month_of _ _ Hd H1) as (t1 & _ & Hm1 & Hl1).
  destruct (dated_month_of _ _ Hd H2) as (t2 & _ & Hm2 & Hl2).
  rewrite Hl1, Hl2, Hm1, Hm2.
  split; [|intros Heq; apply (inj Some) in Heq; by rewrite Heq].
  intros Heq. f_equal. apply start_time_inj.
  pose proof (read_back_row _ _ _ Hrb H1 Hm1) as P1.
  pose proof (read_back_row _ _ _ Hrb H2 Hm2) as P2.
  rewrite Heq in P1. congruence.
Qed.

(** Lines 108-111 on a frame whose rows all hold an opened timestamp. *)
Lemma monthly_cases_dated df :
  "Opened Date" ∈ columns df → dated df → read_back df →
  monthly df
  = Ok (set_column "YearMonth"
          ((λ r, Some (VStr (month_label r))) <$> rows df) df,
        sort_values
          ((λ x, (parse_datetime x.1, x.2))
             <$> groupby_size (month_label <$> rows df))).
Proof.
  intros Hc Hd Hrb. unfold monthly_cases.
  rewrite (get_column_ok _ _ Hc), result_bind_ok.
  rewrite (mapM_ok _ _ month_label).
  2:{ intros r Hr.
      destruct (dated_month_of _ _ Hd Hr) as (t & Ht & _ & Hl).
      by rewrite Ht, Hl. }
  rewrite result_bind_ok, <- !list_fmap_compose.
  rewrite (mapM_ok _ _ (λ x, parse_datetime x.1)).
  2:{ intros [k' n] Hk.
      unfold groupby_size in Hk. rewrite elem_of_stable_sort in Hk.
      apply elem_of_frequencies in Hk as [Hk _]. simpl.
      apply list_elem_of_fmap in Hk as (r & -> & Hr).
      destruct (dated_month_of _ _ Hd Hr) as (t & _ & Hm & Hl).
      unfold to_datetime_strict. rewrite Hl.
      rewrite decide_False by apply period_str_not_NaT.
      by rewrite (read_back_row _ _ _ Hrb Hr Hm). }
  rewrite result_bind_ok. unfold mret, result_ret.
  by rewrite zip_fmap_fst.
Qed.


Lemma cleaned_frame src ev df :
  load src = (ev, Done df) → "Opened Date" ∈ columns df ∧ dated df.
Proof.
  intros Hload. split.
  - apply load_inv in Hload as (? & mid & ? & pre & _ & Hm & Hp & -> & _).
    apply (opened_date_kept _ _ _ _ Hm Hp).
  - intros r Hr. by apply (cleaned_dated _ _ _ _ Hload).
Qed.

Lemma monthly_table_Permutation df :
  table df
  ≡ₚ (λ x, (parse_datetime x.1, x.2))
       <$> frequencies (month_label <$> rows df).
Proof.
  unfold monthly_table, sort_values, groupby_size.
  by rewrite !stable_sort_Permutation.
Qed.

Lemma count_month_label df r p :
  dated df → read_back df → r ∈ rows df → month_of r = Some p →
  count (month_label r) (month_label <$> rows df) = records_in_month p df.
Proof.
  intros Hd Hrb Hr Hp. rewrite count_fmap. unfold records_in_month.
  apply length_filter_iff. intros r' Hr'.
  rewrite (month_label_eq_iff df r' r) by done. by rewrite Hp.
Qed.

Lemma elem_of_monthly_table df k n :
  dated df → read_back df →
  (k, n) ∈ table df ↔
  ∃ p, k = Some (start_time p) ∧ 0 < n ∧ n = records_in_month p df.
Proof.
  intros Hd Hrb. rewrite monthly_table_Permutation, list_elem_of_fmap.
  split.
  - intros ([lbl c] & [= -> ->] & Hin). simpl.
    apply elem_of_frequencies in Hin as [Hin ->].
    pose proof (count_pos _ _ Hin) as Hpos.
    apply list_elem_of_fmap in Hin as (r & -> & Hr).
    destruct (dated_month_of _ _ Hd Hr) as (t & _ & Hm & Hl).
    exists (to_period t).
    rewrite (count_month_label _ _ _ Hd Hrb Hr Hm) in *.
    split; [|done]. rewrite Hl. by apply (read_back_row df r).
  - intros (p & -> & Hpos & ->). unfold records_in_month in Hpos.
    destruct (filter _ _) as [|r l] eqn:Hf; [simpl in Hpos; lia|].
    assert (r ∈ filter (λ r, month_of r = Some p) (rows df))
      as [Hm Hr]%list_elem_of_filter by (rewrite Hf; left).
    exists (month_label r, count (month_label r) (month_label <$> rows df)).
    simpl. split.
    + rewrite (count_month_label _ _ _ Hd Hrb Hr Hm). f_equal.
      unfold month_label. rewrite Hm. symmetry.
      by apply (read_back_row df r).
    + apply elem_of_frequencies. split; [|done].
      apply list_elem_of_fmap. by exists r.
Qed.

Lemma NoDup_monthly_keys df :
  dated df → read_back df → NoDup (table df).*1.
Proof.
  intros Hd Hrb. rewrite monthly_table_Permutation.
  assert (∀ l : list (string * nat),
            ((λ x, (parse_datetime x.1, x.2)) <$> l).*1
            = parse_datetime <$> l.*1) as ->
    by (intros l; by rewrite <- !list_fmap_compose).
  rewrite frequencies_keys.
  apply NoDup_fmap_2_strong; [|apply NoDup_keep_first].
  intros k1 k2 [H1 _]%elem_of_keep_first [H2 _]%elem_of_keep_first.
  apply list_elem_of_fmap in H1 as (r1 & -> & Hr1).
  apply list_elem_of_fmap in H2 as (r2 & -> & Hr2).
  destruct (dated_month_of _ _ Hd Hr1) as (t1 & _ & Hm1 & Hl1).
  destruct (dated_month_of _ _ Hd Hr2) as (t2 & _ & Hm2 & Hl2).
  intros Heq. apply (month_label_eq_iff df); [done..|].
  rewrite Hl1, Hl2 in Heq.
  rewrite (read_back_row _ _ _ Hrb Hr1 Hm1) in Heq.
  rewrite (read_back_row _ _ _ Hrb Hr2 Hm2) in Heq.
  apply (inj Some), start_time_inj in Heq.
  by rewrite Hm1, Hm2, Heq.
Qed.

Lemma strictly_sorted (t : list (option Timestamp * nat)) :
  StronglySorted by_month t → NoDup t.*1 →
  Forall (λ x, is_Some x.1) t →
  StronglySorted (λ a b, key_lt a.1 b.1) t.
Proof.
  induction 1 as [|x l Hss IH Hall]; intros Hnd Hsome; [constructor|].
  rewrite fmap_cons in Hnd. apply NoDup_cons in Hnd as [Hx Hnd].
  apply Forall_cons in Hsome as [[a Ha] Hsome].
  constructor; [by apply IH|].
  rewrite Forall_forall in Hall, Hsome. apply Forall_forall.
  intros y Hy. destruct (Hsome y Hy) as [b Hb].
  specialize (Hall y Hy). unfold by_month in Hall.
  rewrite Ha, Hb in *. simpl in *.
  destruct Hall as [Hlt| ->]; [done|].
  exfalso. apply Hx. apply list_elem_of_fmap. exists y. by rewrite Hb.
Qed.

(** C8: on a cleaned dataset the monthly trend is computed; its month keys
    are strictly increasing in time, its counts are positive, each entry is
    the first instant of a month together with the number of records opened
    in that month, and a month has an entry exactly when at least one
    record was opened in it. *)
Theorem monthly_trend_strictly_increasing src ev df :
  load src = (ev, Done df) → read_back df →
  ∃ df' t,
    monthly df = Ok (df', t) ∧
    StronglySorted (λ a b, key_lt a.1 b.1) t ∧
    (∀ k n, (k, n) ∈ t →
       0 < n ∧ ∃ p, k = Some (start_time p) ∧ n = records_in_month p df) ∧
    (∀ p, 0 < records_in_month p df ↔ ∃ n, (Some (start_time p), n) ∈ t).
Proof.
  intros Hload Hrb. destruct (cleaned_frame _ _ _ Hload) as [Hc Hd].
  eexists _, _. split; [by apply monthly_cases_dated|].
  fold (table df). split; [|split].
  - apply strictly_sorted.
    + apply StronglySorted_stable_sort; apply _.
    + by apply NoDup_monthly_keys.
    + apply Forall_forall. intros [k n] Hin.
      apply elem_of_monthly_table in Hin as (p & -> & _); done.
  - intros k n (p & -> & Hpos & ->)%elem_of_monthly_table; [|done..].
    split; [done|]. by exists p.
  - intros p. split.
    + intros Hpos. exists (records_in_month p df).
      apply elem_of_monthly_table; [done..|]. by exists p.
    + intros [n (q & Heq & Hpos & ->)%elem_of_monthly_table]; [|done..].
      apply (inj Some), start_time_inj in Heq. by rewrite Heq.
Qed.

(** C10: on a cleaned dataset the monthly trend is computed and its counts
    add up to the number of rows of the dataset. *)
Theorem monthly_counts_sum_to_rows src ev df :
  load src = (ev, Done df) → read_back df →
  ∃ df' t, monthly df = Ok (df', t) ∧ sum_list t.*2 = n_rows df.
Proof.
  intros Hload Hrb. destruct (cleaned_frame _ _ _ Hload) as [Hc Hd].
  eexists _, _. split; [by apply monthly_cases_dated|].
  fold (table df).
  rewrite (sum_list_Permutation _
             (frequencies (month_label <$> rows df)).*2).
  - rewrite sum_frequencies. apply length_fmap.
  - rewrite monthly_table_Permutation, <- list_fmap_compose. done.
Qed.


(** *** The script *)

Lemma dashboard_ok df st og br rs df' t :
  status_counts df = Ok st → origin_counts df = Ok og →
  top_brands df = Ok br → top_reasons df = Ok rs →
  monthly df = Ok (df', t) →
  page df
  = ([ PageConfig; Title "Customer Case Analysis Dashboard"; Text 0; Rule;
       Header "1. Distribution of Case Status";
       PlotlyChart (Bar "Distribution of Case Status" st); Text 1; Rule;
       Header "2. Distribution of Case Origin";
       PlotlyChart (Bar "Distribution of Case Origin" og); Text 2; Rule;
       Header "3. Top 10 Product Brands by Case Count";
       PlotlyChart (Bar "Top 10 Product Brands by Case Count" br);
       Text 3; Rule;
       Header "4. Top 10 Reasons L1 Description by Case Count";
       PlotlyChart
         (Bar "Top 10 Reasons L1 Description by Case Count" rs);
       Text 4; Rule;
       Header "5. Monthly Trend of Cases Over Time";
       PlotlyChart (Line "Monthly Trend of Cases Over Time" t);
       Text 5; Rule;
       Info "Analysis and visualizations completed. This app provides a dynamic view of your customer case data." ],
     Done df').
Proof.
  intros Hst Hog Hbr Hrs Hm. unfold dashboard.
  by rewrite Hst, Hog, Hbr, Hrs, Hm.
Qed.

Lemma get_column_year_month df (c : string) :
  c ≠ "YearMonth" →
  get_column
    (set_column "YearMonth"
       ((λ r, Some (VStr (month_label r))) <$> rows df) df) c
  = get_column df c.
Proof.
  intros Hne. unfold get_column.
  rewrite rows_set_column_own, <- list_fmap_compose.
  assert (c ∈ columns (set_column "YearMonth"
                         ((λ r, Some (VStr (month_label r))) <$> rows df)
                         df)
          ↔ c ∈ columns df) as Hiff.
  { rewrite elem_of_columns_set_column. split; [|by right].
    by intros [->|Hin]. }
  repeat case_decide; try tauto. f_equal.
  apply list_fmap_ext. intros i r _. simpl.
  by rewrite lookup_partial_alter_ne.
Qed.

Lemma get_year_month df :
  get_column
    (set_column "YearMonth"
       ((λ r, Some (VStr (month_label r))) <$> rows df) df) "YearMonth"
  = Ok ((λ r, Some (VStr (month_label r))) <$> rows df).
Proof.
  rewrite get_column_ok
    by (apply elem_of_columns_set_column; by left).
  rewrite rows_set_column_own, <- list_fmap_compose. f_equal.
  apply list_fmap_ext. intros i r _. simpl.
  by rewrite lookup_partial_alter_eq.
Qed.

(** C1 (as amended): the four frequency aggregations leave the cleaned
    dataset as it is, and the monthly trend step stores the month labels
    in it as column ['YearMonth'] (added, or overwritten when the input
    already has one).  After the five aggregations the dataset has the
    same rows in the same order, every column of the cleaned dataset is
    still there, and every column other than ['YearMonth'] holds what it
    held. *)
Theorem aggregations_only_set_year_month src ev df :
  load src = (ev, Done df) →
  "Status" ∈ columns df → "Case Origin" ∈ columns df →
  "Product: Brand" ∈ columns df → "Reason L1 desc" ∈ columns df →
  read_back df →
  ∃ ev' df' t,
    run src = (ev ++ ev', Done df') ∧
    monthly df = Ok (df', t) ∧
    df' = set_column "YearMonth"
            ((λ r, Some (VStr (month_label r))) <$> rows df) df ∧
    n_rows df' = n_rows df ∧
    get_column df' "YearMonth"
    = Ok ((λ r, Some (VStr (month_label r))) <$> rows df) ∧
    (∀ c, c ∈ columns df → c ∈ columns df') ∧
    (∀ c, c ≠ "YearMonth" → get_column df' c = get_column df c).
Proof.
  intros Hload Hst Hog Hbr Hrs Hrb.
  destruct (cleaned_frame _ _ _ Hload) as [Hc Hd].
  pose proof (monthly_cases_dated _ Hc Hd Hrb) as Hm.
  eexists _, _, _. split.
  - unfold script. rewrite Hload, bind_done.
    erewrite dashboard_ok; [reflexivity| | | | |exact Hm];
      unfold status_counts, origin_counts, top_brands, top_reasons;
      rewrite get_column_ok by done; reflexivity.
  - split; [done|]. split; [done|]. split; [|split; [|split]].
    + unfold n_rows. by rewrite rows_set_column_own, length_fmap.
    + apply get_year_month.
    + intros c Hin. apply elem_of_columns_set_column. by right.
    + apply get_column_year_month.
Qed.

(** C9: when the input file cannot be read the script ends in the loader:
    nothing but the loader's trace is produced, so no aggregation runs and
    no chart is drawn; the run does not complete; and the user is shown
    one error message, the [st.error] text for a missing file or else the
    exception that left the script. *)
Theorem unreadable_input_halts (e : exn) :
  run (ReadFail e)
  = match e with
    | FileNotFoundError => ([StError not_found_message], Stopped)
    | _ => ([], Uncaught e)
    end
  ∧ (run (ReadFail e)).1 = (load (ReadFail e)).1
  ∧ charts (run (ReadFail e)).1 = []
  ∧ (∀ df, (run (ReadFail e)).2 ≠ Done df)
  ∧ length (error_messages (run (ReadFail e))) = 1.
Proof. destruct e; repeat split; done. Qed.

End Properties.

(** ** Further properties of the loader and of the page *)

Section Further.

Variable parse_datetime : string → option Timestamp.
Variable epoch_datetime : Z → option Timestamp.

Local Abbreviation to_dt := (to_datetime parse_datetime epoch_datetime).
Local Abbreviation with_dt := (with_datetime parse_datetime epoch_datetime).
Local Abbreviation parse_od :=
  (parse_opened_date parse_datetime epoch_datetime).
Local Abbreviation load :=
  (load_and_clean_data parse_datetime epoch_datetime).
Local Abbreviation monthly := (monthly_cases parse_datetime).
Local Abbreviation read_back := (labels_read_back parse_datetime).
Local Abbreviation run := (script parse_datetime epoch_datetime).
Local Abbreviation page := (dashboard parse_datetime).

Implicit Types (df mid pre out : DataFrame) (r : gmap string value).

Lemma get_column_missing df (c : string) :
  c ∉ columns df → get_column df c = Raise (KeyError c).
Proof. intros Hc. unfold get_column. by rewrite decide_False. Qed.

(** The loader's trace holds side-panel notices only. *)
Lemma loader_trace src ev df :
  load src = (ev, Done df) → ∃ msgs, ev = SidebarInfo <$> msgs.
Proof.
  intros (? & mid & ev1 & pre & _ & _ & Hpre & _ & ->)%load_inv.
  destruct (prune_store_cases mid) as [(_ & _ & Hp)|[_ Hp]];
    rewrite Hp in Hpre; injection Hpre as <- <-.
  - by eexists [_; _].
  - by eexists [_].
Qed.

Lemma charts_notices (msgs : list string) (l : list event) :
  charts ((SidebarInfo <$> msgs) ++ l) = charts l.
Proof. induction msgs as [|m msgs IH]; [done|]. exact IH. Qed.

Lemma cleaned_keeps_column df ev out (c : string) :
  load (ReadOk df) = (ev, Done out) →
  c ∈ columns df → c ≠ "Store" → c ∈ columns out.
Proof.
  intros (? & mid & ev1 & pre & Heq & Hm & Hp & -> & _)%load_inv Hc Hne.
  injection Heq as <-.
  apply parse_opened_date_inv in Hm as (_ & Hcols & _).
  destruct (prune_store_inv _ _ _ Hp) as ([->| ->] & _ & _); simpl.
  - by rewrite Hcols.
  - apply list_elem_of_filter. by rewrite Hcols.
Qed.

(** X1: without an ['Opened Date'] column the loader raises [KeyError] at
    line 17, before any notice; the script ends there with an empty page. *)
Theorem missing_opened_date_raises df :
  "Opened Date" ∉ columns df →
  load_and_clean_data parse_datetime epoch_datetime (ReadOk df)
  = ([], Uncaught (KeyError "Opened Date")) ∧
  script parse_datetime epoch_datetime (ReadOk df)
  = ([], Uncaught (KeyError "Opened Date")).
Proof.
  intros Hc.
  assert (load (ReadOk df) = ([], Uncaught (KeyError "Opened Date"))) as Hl.
  { unfold load_and_clean_data. simpl read_or_halt.
    change (mret df : M DataFrame) with (lift (Ok df)).
    rewrite bind_lift_ok. unfold parse_opened_date.
    by rewrite (get_column_missing _ _ Hc). }
  split; [done|]. unfold script. by rewrite Hl.
Qed.




(** X4: the ['Store'] column is judged on the rows that survive the date
    filter only: when no row whose opened date parses has a store, the column
    is removed and the removal is the first notice, whatever the rows that
    were dropped held. *)
Theorem store_judged_on_dated_rows df :
  "Opened Date" ∈ columns df → "Store" ∈ columns df →
  Forall (λ r, is_Some (to_dt (r !! "Opened Date")) → r !! "Store" = None)
    (rows df) →
  ∃ ev out,
    load (ReadOk df) = (ev, Done out) ∧
    ("Store" ∉ columns out) ∧
    ev = [SidebarInfo store_dropped_message;
          SidebarInfo (duplicates_notice
                         (length (filter (λ r0, is_Some
                                            (to_dt (r0 !! "Opened Date")))
                                    (rows df)))
                         (n_rows out))].
Proof.
  intros Hc Hs Hnone. rewrite Forall_forall in Hnone.
  destruct (load_total parse_datetime epoch_datetime df Hc)
    as (ev & out & Hload).
  exists ev, out. split; [done|].
  apply load_inv in Hload as (? & mid & ev1 & pre & Heq & Hm & Hp & -> & ->).
  injection Heq as <-.
  apply parse_opened_date_inv in Hm as (_ & Hcols & Hrows).
  destruct (prune_store_inv _ _ _ Hp) as (_ & Hn & _).
  destruct (prune_store_cases mid) as [(_ & _ & Hp')|[Hnot Hp']];
    rewrite Hp' in Hp; injection Hp as <- <-.
  - split.
    + simpl. intros [Hne _]%list_elem_of_filter. done.
    + simpl. do 3 f_equal. rewrite Hn. unfold n_rows.
      by rewrite Hrows, length_dated_rows.
  - exfalso. apply Hnot. split; [by rewrite Hcols|].
    intros r. rewrite Hrows, list_elem_of_filter, list_elem_of_fmap.
    intros [Hsome (r0 & -> & Hr0)]. unfold with_datetime in *.
    rewrite lookup_partial_alter_eq in Hsome.
    rewrite lookup_partial_alter_ne by done. by apply Hnone.
Qed.

Lemma frequency_sections_ok df :
  Forall (λ c, c ∈ columns df) aggregated_columns →
  status_counts df
  = Ok (value_counts ((λ r, r !! "Status") <$> rows df)) ∧
  origin_counts df
  = Ok (value_counts ((λ r, r !! "Case Origin") <$> rows df)) ∧
  top_brands df
  = Ok (head 10 (value_counts ((λ r, r !! "Product: Brand") <$> rows df))) ∧
  top_reasons df
  = Ok (head 10 (value_counts ((λ r, r !! "Reason L1 desc") <$> rows df))).
Proof.
  unfold aggregated_columns. rewrite !Forall_cons.
  intros (Hst & Hog & Hbr & Hrs & _).
  unfold status_counts, origin_counts, top_brands, top_reasons.
  by rewrite !get_column_ok.
Qed.

(** X5: the status table and the origin table come in descending order of
    count. *)
Theorem status_and_origin_descending df :
  "Status" ∈ columns df → "Case Origin" ∈ columns df →
  ∃ st og,
    status_counts df = Ok st ∧ origin_counts df = Ok og ∧
    StronglySorted by_count_desc st ∧ StronglySorted by_count_desc og.
Proof.
  intros Hst Hog. unfold status_counts, origin_counts.
  rewrite !get_column_ok by done. eexists _, _.
  split; [reflexivity|]. split; [reflexivity|].
  split; apply value_counts_sorted.
Qed.


Lemma mapM_cases {A B} (f : A → result B) (l : list A) :
  (∃ l', mapM f l = Ok l') ∨
  (∃ x e, x ∈ l ∧ f x = Raise e ∧ mapM f l = Raise e).
Proof.
  induction l as [|x l IH]; [left; by exists []|].
  cbn [mapM]. destruct (f x) as [y|e] eqn:Hx.
  - rewrite result_bind_ok.
    destruct IH as [[l' ->]|(x' & e & Hin & Hf & ->)].
    + left. by eexists.
    + right. exists x', e. split; [by right|done].
  - right. exists x, e. split; [left|done].
Qed.

(** Lines 108-111 on a frame whose rows all hold an opened timestamp: the
    only step that can raise is line 110, on the label of some row. *)
Lemma monthly_cases_dated_cases df :
  "Opened Date" ∈ columns df → dated df →
  (∃ t, monthly df
        = Ok (set_column "YearMonth"
                ((λ r, Some (VStr (month_label r))) <$> rows df) df, t)) ∨
  (∃ r, r ∈ rows df ∧ parse_datetime (month_label r) = None ∧
        monthly df = Raise (ValueError (month_label r))).
Proof.
  intros Hc Hd. unfold monthly_cases.
  rewrite (get_column_ok _ _ Hc), result_bind_ok.
  rewrite (mapM_ok _ _ month_label).
  2:{ intros r Hr.
      destruct (dated_month_of _ _ Hd Hr) as (t & Ht & _ & Hl).
      by rewrite Ht, Hl. }
  rewrite result_bind_ok, <- !list_fmap_compose.
  destruct (mapM_cases (to_datetime_strict parse_datetime)
              (groupby_size (month_label <$> rows df)).*1)
    as [[keys ->]|(k & e & Hin & Hk & ->)].
  - left. rewrite result_bind_ok. by eexists.
  - right. apply list_elem_of_fmap in Hin as ([k' n] & -> & Hin).
    unfold groupby_size in Hin. rewrite elem_of_stable_sort in Hin.
    apply elem_of_frequencies in Hin as [Hin _]. simpl in *.
    apply list_elem_of_fmap in Hin as (r & -> & Hr).
    exists r. split; [done|].
    unfold to_datetime_strict in Hk. case_decide; [done|].
    destruct (parse_datetime (month_label r)); [done|].
    injection Hk as <-. done.
Qed.

Lemma cleaned_sections src ev df :
  load src = (ev, Done df) →
  ∃ msgs, ev = SidebarInfo <$> msgs ∧
          "Opened Date" ∈ columns df ∧ dated df.
Proof.
  intros Hload. destruct (loader_trace _ _ _ Hload) as [msgs ->].
  exists msgs. split; [done|]. by apply (cleaned_frame _ _ _ _ _ Hload).
Qed.

(** X7: a run that reads the four columns and every month label draws
    exactly five charts, in the order status, origin, brand, reason, month,
    each from its table, after the loader's notices; the closing banner is
    the last thing on the page. *)
Theorem successful_run_draws_five_charts src ev df :
  load src = (ev, Done df) →
  Forall (λ c, c ∈ columns df) aggregated_columns →
  read_back df →
  ∃ st og br rs df' t,
    status_counts df = Ok st ∧ origin_counts df = Ok og ∧
    top_brands df = Ok br ∧ top_reasons df = Ok rs ∧
    monthly df = Ok (df', t) ∧
    (run src).2 = Done df' ∧
    charts (run src).1
    = [ PlotlyChart (Bar "Distribution of Case Status" st);
        PlotlyChart (Bar "Distribution of Case Origin" og);
        PlotlyChart (Bar "Top 10 Product Brands by Case Count" br);
        PlotlyChart (Bar "Top 10 Reasons L1 Description by Case Count" rs);
        PlotlyChart (Line "Monthly Trend of Cases Over Time" t) ] ∧
    last (run src).1
    = Some (Info "Analysis and visualizations completed. This app provides a dynamic view of your customer case data.").
Proof.
  intros Hload Hcols Hrb.
  destruct (cleaned_sections _ _ _ Hload) as (msgs & -> & Hc & Hd).
  destruct (frequency_sections_ok _ Hcols) as (Hst & Hog & Hbr & Hrs).
  pose proof (monthly_cases_dated _ _ Hc Hd Hrb) as Hm.
  eexists _, _, _, _, _, _. do 5 (split; [eassumption|]).
  unfold script. rewrite Hload, bind_done.
  rewrite (dashboard_ok _ _ _ _ _ _ _ _ Hst Hog Hbr Hrs Hm).
  split; [done|]. split.
  - simpl fst. by rewrite charts_notices.
  - simpl fst. by rewrite last_app_cons.
Qed.


(** X8: a frequency section whose column is missing raises [KeyError] for
    that column, and the page stops there: the charts drawn are those of the
    sections before it, as many as there are columns before the first
    missing one. *)
Theorem first_missing_column_stops_page src ev df (k : nat) (c : string) :
  load src = (ev, Done df) →
  aggregated_columns !! k = Some c → c ∉ columns df →
  Forall (λ c', c' ∈ columns df) (take k aggregated_columns) →
  (run src).2 = Uncaught (KeyError c) ∧ length (charts (run src).1) = k.
Proof.
  intros Hload Hk Hc Hprev.
  destruct (loader_trace _ _ _ Hload) as [msgs ->].
  unfold script. rewrite Hload, bind_done. simpl fst. simpl snd.
  rewrite charts_notices. unfold dashboard.
  destruct k as [|[|[|[|k]]]]; simpl in Hk; [| | | |done];
    injection Hk as <-; simpl in Hprev; rewrite ?Forall_cons in Hprev.
  - unfold status_counts. rewrite get_column_missing by done. done.
  - destruct Hprev as (Hst & _).
    unfold status_counts, origin_counts.
    rewrite (get_column_ok df "Status") by done.
    rewrite get_column_missing by done. done.
  - destruct Hprev as (Hst & Hog & _).
    unfold status_counts, origin_counts, top_brands.
    rewrite (get_column_ok df "Status") by done.
    rewrite (get_column_ok df "Case Origin") by done.
    rewrite get_column_missing by done. done.
  - destruct Hprev as (Hst & Hog & Hbr & _).
    unfold status_counts, origin_counts, top_brands, top_reasons.
    rewrite (get_column_ok df "Status") by done.
    rewrite (get_column_ok df "Case Origin") by done.
    rewrite (get_column_ok df "Product: Brand") by done.
    rewrite get_column_missing by done. done.
Qed.

(** X9: on a cleaned dataset that has the four columns the first four charts
    are always drawn, and the run can only fail at line 110: either it
    completes with five charts, or [pd.to_datetime] rejects the month label
    of some row and the run ends in [ValueError] after four charts. *)
Theorem cleaned_run_fails_only_at_line_110 src ev df :
  load src = (ev, Done df) →
  Forall (λ c, c ∈ columns df) aggregated_columns →
  (∃ df', (run src).2 = Done df' ∧ length (charts (run src).1) = 5) ∨
  (∃ r, r ∈ rows df ∧ parse_datetime (month_label r) = None ∧
        (run src).2 = Uncaught (ValueError (month_label r)) ∧
        length (charts (run src).1) = 4).
Proof.
  intros Hload Hcols.
  destruct (cleaned_sections _ _ _ Hload) as (msgs & -> & Hc & Hd).
  destruct (frequency_sections_ok _ Hcols) as (Hst & Hog & Hbr & Hrs).
  unfold script. rewrite Hload, bind_done. simpl fst. simpl snd.
  rewrite charts_notices.
  destruct (monthly_cases_dated_cases _ Hc Hd) as [[t Hm]|(r & Hr & Hp & Hm)].
  - left. rewrite (dashboard_ok _ _ _ _ _ _ _ _ Hst Hog Hbr Hrs Hm).
    by eexists.
  - right. exists r. split; [done|]. split; [done|].
    unfold dashboard. by rewrite Hst, Hog, Hbr, Hrs, Hm.
Qed.

Lemma filter_none {A} (P : A → Prop) `{!∀ x, Decision (P x)} (l : list A) :
  (∀ x, x ∈ l → ¬ P x) → filter P l = [].
Proof.
  induction l as [|x l IH]; intros Hnot; [done|].
  rewrite filter_cons, decide_False by (apply Hnot; left).
  apply IH. intros y Hy. apply Hnot. by right.
Qed.

(** X10: a table none of whose opened dates parses (an empty table among
    them) does not stop the run: the cleaned dataset has no rows, the loader
    reports that no duplicates were found, and the five charts are drawn
    from empty tables. *)
Theorem no_dated_rows_give_empty_charts df :
  "Opened Date" ∈ columns df →
  Forall (λ c, c ∈ columns df) aggregated_columns →
  Forall (λ r, to_dt (r !! "Opened Date") = None) (rows df) →
  ∃ df',
    (run (ReadOk df)).2 = Done df' ∧ n_rows df' = 0 ∧
    SidebarInfo no_duplicates_message ∈ (run (ReadOk df)).1 ∧
    charts (run (ReadOk df)).1
    = [ PlotlyChart (Bar "Distribution of Case Status" []);
        PlotlyChart (Bar "Distribution of Case Origin" []);
        PlotlyChart (Bar "Top 10 Product Brands by Case Count" []);
        PlotlyChart (Bar "Top 10 Reasons L1 Description by Case Count" []);
        PlotlyChart (Line "Monthly Trend of Cases Over Time" []) ].
Proof.
  intros Hc Hcols Hnone. rewrite Forall_forall in Hnone.
  destruct (load_total parse_datetime epoch_datetime df Hc)
    as (ev & out & Hload).
  assert (Forall (λ c, c ∈ columns out) aggregated_columns) as Hcols'.
  { unfold aggregated_columns in *. rewrite !Forall_cons in Hcols.
    destruct Hcols as (H1 & H2 & H3 & H4 & _).
    repeat constructor;
      by apply (cleaned_keeps_column _ _ _ _ Hload). }
  destruct (cleaned_sections _ _ _ Hload) as (msgs & Hev & Hc' & Hd).
  apply load_inv in Hload as Hinv.
  destruct Hinv as (? & mid & ev1 & pre & Heq & Hm & Hp & Hout & Hev').
  injection Heq as <-.
  apply parse_opened_date_inv in Hm as (_ & _ & Hrows).
  destruct (prune_store_inv _ _ _ Hp) as (_ & Hn & _).
  assert (rows pre = []) as Hpre.
  { apply nil_length_inv. fold (n_rows pre). rewrite Hn. unfold n_rows.
    rewrite Hrows, length_dated_rows, filter_none; [done|].
    intros r Hr. rewrite (Hnone r Hr). by intros [??]. }
  assert (rows out = []) as Hempty by (by rewrite Hout; simpl; rewrite Hpre).
  assert (read_back out) as Hrb
    by (unfold labels_read_back; rewrite Hempty; constructor).
  destruct (frequency_sections_ok _ Hcols') as (Hst & Hog & Hbr & Hrs).
  pose proof (monthly_cases_dated _ _ Hc' Hd Hrb) as Hmon.
  rewrite Hempty in Hst, Hog, Hbr, Hrs, Hmon.
  unfold script. rewrite Hload, bind_done.
  rewrite (dashboard_ok _ _ _ _ _ _ _ _ Hst Hog Hbr Hrs Hmon).
  eexists. split; [reflexivity|]. split; [reflexivity|]. split.
  - simpl fst. apply elem_of_app. left. rewrite Hev'.
    apply elem_of_app. right. apply list_elem_of_singleton.
    unfold duplicates_notice. rewrite bool_decide_eq_false_2; [done|].
    rewrite Hout. unfold n_rows. simpl. rewrite Hpre. simpl. lia.
  - simpl fst. rewrite Hev, charts_notices. reflexivity.
Qed.


End Further.


(** ** Examples on the sample tables *)

Ltac by_compute := apply (bool_decide_unpack _); vm_compute; exact I.

Section Examples.
Import Sample.

Local Abbreviation load := (load_and_clean_data iso_parse no_epoch).
Local Abbreviation run := (script iso_parse no_epoch).
Local Abbreviation monthly := (monthly_cases iso_parse).

Example cases_cleaned : load (ReadOk cases) = (cases_notices, Done cleaned_cases).
Proof. vm_compute. reflexivity. Qed.

Example cases_monthly :
  monthly cleaned_cases
  = Ok (final_cases,
        [ (Some (mkTimestamp 2024 1 1 0), 2);
          (Some (mkTimestamp 2024 2 1 0), 1) ]).
Proof. vm_compute. reflexivity. Qed.

Example cases_status :
  status_counts cleaned_cases = Ok [(VStr "Closed", 2); (VStr "Open", 1)].
Proof. vm_compute. reflexivity. Qed.

(** C1, counterexample: the script leaves the cleaned sample with a sixth
    column, ['YearMonth']. *)
Lemma aggregations_change_the_frame :
  load (ReadOk cases) = (cases_notices, Done cleaned_cases) ∧
  (run (ReadOk cases)).2 = Done final_cases ∧
  final_cases ≠ cleaned_cases ∧
  "YearMonth" ∈ columns final_cases ∧
  "YearMonth" ∉ columns cleaned_cases.
Proof.
  split; [vm_compute; reflexivity|]. split; [vm_compute; reflexivity|].
  split; [|split; by_compute].
  intros H. apply (f_equal columns) in H. discriminate H.
Qed.

(** C2, counterexample: the column ['Notes'] of the sample holds no value
    in any row, and the cleaned table still has it. *)
Lemma all_null_column_kept :
  load (ReadOk notes_table)
  = ([SidebarInfo "No duplicate rows found."], Done cleaned_notes) ∧
  "Notes" ∈ columns cleaned_notes ∧
  n_rows cleaned_notes = 1 ∧
  ∀ r, r ∈ rows cleaned_notes → r !! "Notes" = None.
Proof.
  split; [vm_compute; reflexivity|]. split; [by_compute|].
  split; [reflexivity|].
  intros r Hr. apply list_elem_of_singleton in Hr as ->.
  vm_compute. reflexivity.
Qed.

(** C3, counterexample: the cleaned sample has one row, whose status is
    absent; the status counts add up to 0. *)
Lemma status_counts_skip_absent_status :
  load (ReadOk no_status_table)
  = ([SidebarInfo "No duplicate rows found."], Done cleaned_no_status) ∧
  status_counts cleaned_no_status = Ok [] ∧
  sum_list ([] : list (value * nat)).*2 ≠ n_rows cleaned_no_status.
Proof.
  split; [vm_compute; reflexivity|]. split; [vm_compute; reflexivity|].
  vm_compute. discriminate.
Qed.

(** *** The theorems at the sample tables *)

Local Abbreviation to_dt := (to_datetime iso_parse no_epoch).
Local Abbreviation parse_od := (parse_opened_date iso_parse no_epoch).

Lemma cleaned_rows_have_parsed_timestamp_witness :
  "Opened Date" ∈ columns cases ∧
  ∃ ev out,
    load (ReadOk cases) = (ev, Done out) ∧
    (∀ r, r ∈ rows out →
       ∃ r0 t, r0 ∈ rows cases ∧
               to_dt (r0 !! "Opened Date") = Some (VTime t) ∧
               r !! "Opened Date" = Some (VTime t) ∧
               ∀ c, c ∈ columns out → c ≠ "Opened Date" →
                    r !! c = r0 !! c) ∧
    n_rows out
    ≤ length (filter (λ r0, is_Some (to_dt (r0 !! "Opened Date")))
                (rows cases)).
Proof.
  split; [by_compute|].
  apply cleaned_rows_have_parsed_timestamp. by_compute.
Defined.

Lemma cleaned_rows_distinct_and_reported_witness :
  wf_frame cases ∧ "Opened Date" ∈ columns cases ∧
  ∃ ev pre out,
    (lift (parse_od cases) ≫= prune_store) = (ev, Done pre) ∧
    load (ReadOk cases)
    = (ev ++ [SidebarInfo (duplicates_notice (n_rows pre) (n_rows out))],
       Done out) ∧
    columns out = columns pre ∧
    rows out `sublist_of` rows pre ∧
    (∀ r, r ∈ rows pre → r ∈ rows out) ∧
    NoDup (rows out) ∧
    (∀ i j r1 r2,
       i ≠ j → rows out !! i = Some r1 → rows out !! j = Some r2 →
       ¬ ∀ c, c ∈ columns out → r1 !! c = r2 !! c) ∧
    (n_rows out < n_rows pre →
     duplicates_notice (n_rows pre) (n_rows out)
     = "Removed " +:+ pretty (n_rows pre - n_rows out)
       +:+ " duplicate rows.") ∧
    (¬ n_rows out < n_rows pre →
     n_rows out = n_rows pre ∧
     duplicates_notice (n_rows pre) (n_rows out)
     = "No duplicate rows found.").
Proof.
  split; [by_compute|]. split; [by_compute|].
  apply cleaned_rows_distinct_and_reported; by_compute.
Defined.

Lemma cleaning_idempotent_witness :
  "Opened Date" ∈ columns cases ∧
  ∃ ev out,
    load (ReadOk cases) = (ev, Done out) ∧
    load (ReadOk out) = ([SidebarInfo no_duplicates_message], Done out).
Proof.
  split; [by_compute|]. apply cleaning_idempotent. by_compute.
Defined.

Lemma only_store_column_pruned_witness :
  "Opened Date" ∈ columns cases ∧
  ∃ mid ev out,
    parse_od cases = Ok mid ∧
    load (ReadOk cases) = (ev, Done out) ∧
    (("Store" ∈ columns cases ∧
      (∀ r, r ∈ rows mid → r !! "Store" = None) ∧
      columns out = filter (λ c, c ≠ "Store") (columns cases) ∧
      ev = [SidebarInfo store_dropped_message;
            SidebarInfo (duplicates_notice (n_rows mid) (n_rows out))])
     ∨ (¬ ("Store" ∈ columns cases ∧
           ∀ r, r ∈ rows mid → r !! "Store" = None) ∧
        columns out = columns cases ∧
        ev = [SidebarInfo (duplicates_notice (n_rows mid) (n_rows out))]))
    ∧ ("Store" ∈ columns out →
       ∃ r, r ∈ rows out ∧ is_Some (r !! "Store")).
Proof.
  split; [by_compute|]. apply only_store_column_pruned. by_compute.
Defined.

Lemma frequency_sums_witness :
  ("Status" ∈ columns cleaned_cases ∧
   "Case Origin" ∈ columns cleaned_cases ∧
   "Product: Brand" ∈ columns cleaned_cases ∧
   "Reason L1 desc" ∈ columns cleaned_cases) ∧
  ∃ st og br rs,
    status_counts cleaned_cases = Ok st ∧
    origin_counts cleaned_cases = Ok og ∧
    top_brands cleaned_cases = Ok br ∧
    top_reasons cleaned_cases = Ok rs ∧
    sum_list st.*2
    = length (filter (λ r, is_Some (r !! "Status")) (rows cleaned_cases)) ∧
    sum_list og.*2
    = length (filter (λ r, is_Some (r !! "Case Origin"))
                (rows cleaned_cases)) ∧
    ((∀ r, r ∈ rows cleaned_cases → is_Some (r !! "Status")) →
     sum_list st.*2 = n_rows cleaned_cases) ∧
    ((∀ r, r ∈ rows cleaned_cases → is_Some (r !! "Case Origin")) →
     sum_list og.*2 = n_rows cleaned_cases) ∧
    sum_list st.*2 ≤ n_rows cleaned_cases ∧
    sum_list og.*2 ≤ n_rows cleaned_cases ∧
    sum_list br.*2 ≤ n_rows cleaned_cases ∧
    sum_list rs.*2 ≤ n_rows cleaned_cases.
Proof.
  split; [repeat split; by_compute|].
  apply frequency_sums; by_compute.
Defined.

Lemma frequency_tables_witness :
  ("Status" ∈ columns cleaned_cases ∧
   "Case Origin" ∈ columns cleaned_cases ∧
   "Product: Brand" ∈ columns cleaned_cases ∧
   "Reason L1 desc" ∈ columns cleaned_cases) ∧
  ∃ st og br rs,
    status_counts cleaned_cases = Ok st ∧
    origin_counts cleaned_cases = Ok og ∧
    top_brands cleaned_cases = Ok br ∧
    top_reasons cleaned_cases = Ok rs ∧
    full_table "Status" cleaned_cases st ∧
    full_table "Case Origin" cleaned_cases og ∧
    top_table 10 "Product: Brand" cleaned_cases br ∧
    top_table 10 "Reason L1 desc" cleaned_cases rs.
Proof.
  split; [repeat split; by_compute|].
  apply frequency_tables; by_compute.
Defined.

Lemma monthly_trend_strictly_increasing_witness :
  (load (ReadOk cases) = (cases_notices, Done cleaned_cases) ∧
   labels_read_back iso_parse cleaned_cases) ∧
  ∃ df' t,
    monthly cleaned_cases = Ok (df', t) ∧
    StronglySorted (λ a b, key_lt a.1 b.1) t ∧
    (∀ k n, (k, n) ∈ t →
       0 < n ∧ ∃ p, k = Some (start_time p) ∧
                    n = records_in_month p cleaned_cases) ∧
    (∀ p, 0 < records_in_month p cleaned_cases
          ↔ ∃ n, (Some (start_time p), n) ∈ t).
Proof.
  split; [split; [vm_compute; reflexivity|by_compute]|].
  apply (monthly_trend_strictly_increasing iso_parse no_epoch
           (ReadOk cases) cases_notices cleaned_cases);
    [vm_compute; reflexivity|by_compute].
Defined.

Lemma monthly_counts_sum_to_rows_witness :
  (load (ReadOk cases) = (cases_notices, Done cleaned_cases) ∧
   labels_read_back iso_parse cleaned_cases) ∧
  ∃ df' t,
    monthly cleaned_cases = Ok (df', t) ∧
    sum_list t.*2 = n_rows cleaned_cases.
Proof.
  split; [split; [vm_compute; reflexivity|by_compute]|].
  apply (monthly_counts_sum_to_rows iso_parse no_epoch
           (ReadOk cases) cases_notices cleaned_cases);
    [vm_compute; reflexivity|by_compute].
Defined.

Lemma aggregations_only_set_year_month_witness :
  (load (ReadOk cases) = (cases_notices, Done cleaned_cases) ∧
   "Status" ∈ columns cleaned_cases ∧
   "Case Origin" ∈ columns cleaned_cases ∧
   "Product: Brand" ∈ columns cleaned_cases ∧
   "Reason L1 desc" ∈ columns cleaned_cases ∧
   labels_read_back iso_parse cleaned_cases) ∧
  ∃ ev' df' t,
    run (ReadOk cases) = (cases_notices ++ ev', Done df') ∧
    monthly cleaned_cases = Ok (df', t) ∧
    df' = set_column "YearMonth"
            ((λ r, Some (VStr (month_label r))) <$> rows cleaned_cases)
            cleaned_cases ∧
    n_rows df' = n_rows cleaned_cases ∧
    get_column df' "YearMonth"
    = Ok ((λ r, Some (VStr (month_label r))) <$> rows cleaned_cases) ∧
    (∀ c, c ∈ columns cleaned_cases → c ∈ columns df') ∧
    (∀ c, c ≠ "YearMonth" →
          get_column df' c = get_column cleaned_cases c).
Proof.
  split; [split; [vm_compute; reflexivity|repeat split; by_compute]|].
  apply (aggregations_only_set_year_month iso_parse no_epoch
           (ReadOk cases) cases_notices cleaned_cases);
    [vm_compute; reflexivity|by_compute..].
Defined.

(** *** The further properties at the sample tables *)

Lemma missing_opened_date_raises_witness :
  ("Opened Date" ∉ columns undated_table) ∧
  load (ReadOk undated_table) = ([], Uncaught (KeyError "Opened Date")) ∧
  run (ReadOk undated_table) = ([], Uncaught (KeyError "Opened Date")).
Proof.
  split; [by_compute|]. apply missing_opened_date_raises. by_compute.
Defined.



Lemma store_judged_on_dated_rows_witness :
  ("Opened Date" ∈ columns unparsed_cases ∧
   "Store" ∈ columns unparsed_cases ∧
   Forall (λ r, is_Some (to_dt (r !! "Opened Date")) → r !! "Store" = None)
     (rows unparsed_cases)) ∧
  ∃ ev out,
    load (ReadOk unparsed_cases) = (ev, Done out) ∧
    ("Store" ∉ columns out) ∧
    ev = [SidebarInfo store_dropped_message;
          SidebarInfo (duplicates_notice
                         (length (filter (λ r0, is_Some
                                            (to_dt (r0 !! "Opened Date")))
                                    (rows unparsed_cases)))
                         (n_rows out))].
Proof.
  split; [repeat split; by_compute|].
  apply store_judged_on_dated_rows; by_compute.
Defined.

Lemma status_and_origin_descending_witness :
  ("Status" ∈ columns cleaned_cases ∧
   "Case Origin" ∈ columns cleaned_cases) ∧
  ∃ st og,
    status_counts cleaned_cases = Ok st ∧
    origin_counts cleaned_cases = Ok og ∧
    StronglySorted by_count_desc st ∧ StronglySorted by_count_desc og.
Proof.
  split; [split; by_compute|].
  apply status_and_origin_descending; by_compute.
Defined.


Lemma successful_run_draws_five_charts_witness :
  (load (ReadOk cases) = (cases_notices, Done cleaned_cases) ∧
   Forall (λ c, c ∈ columns cleaned_cases) aggregated_columns ∧
   labels_read_back iso_parse cleaned_cases) ∧
  ∃ st og br rs df' t,
    status_counts cleaned_cases = Ok st ∧
    origin_counts cleaned_cases = Ok og ∧
    top_brands cleaned_cases = Ok br ∧ top_reasons cleaned_cases = Ok rs ∧
    monthly cleaned_cases = Ok (df', t) ∧
    (run (ReadOk cases)).2 = Done df' ∧
    charts (run (ReadOk cases)).1
    = [ PlotlyChart (Bar "Distribution of Case Status" st);
        PlotlyChart (Bar "Distribution of Case Origin" og);
        PlotlyChart (Bar "Top 10 Product Brands by Case Count" br);
        PlotlyChart (Bar "Top 10 Reasons L1 Description by Case Count" rs);
        PlotlyChart (Line "Monthly Trend of Cases Over Time" t) ] ∧
    last (run (ReadOk cases)).1
    = Some (Info "Analysis and visualizations completed. This app provides a dynamic view of your customer case data.").
Proof.
  split; [split; [vm_compute; reflexivity|split; by_compute]|].
  apply (successful_run_draws_five_charts iso_parse no_epoch
           (ReadOk cases) cases_notices cleaned_cases);
    [vm_compute; reflexivity|by_compute..].
Defined.

Lemma first_missing_column_stops_page_witness :
  (load (ReadOk unbranded_cases)
   = ([SidebarInfo "No duplicate rows found."], Done cleaned_unbranded) ∧
   aggregated_columns !! 2 = Some "Product: Brand" ∧
   ("Product: Brand" ∉ columns cleaned_unbranded) ∧
   Forall (λ c', c' ∈ columns cleaned_unbranded)
     (take 2 aggregated_columns)) ∧
  (run (ReadOk unbranded_cases)).2 = Uncaught (KeyError "Product: Brand") ∧
  length (charts (run (ReadOk unbranded_cases)).1) = 2.
Proof.
  split.
  - split; [vm_compute; reflexivity|]. split; [reflexivity|].
    split; by_compute.
  - apply (first_missing_column_stops_page iso_parse no_epoch
             (ReadOk unbranded_cases)
             [SidebarInfo "No duplicate rows found."] cleaned_unbranded);
      [vm_compute; reflexivity|reflexivity|by_compute..].
Defined.

Lemma cleaned_run_fails_only_at_line_110_witness :
  (load (ReadOk cases) = (cases_notices, Done cleaned_cases) ∧
   Forall (λ c, c ∈ columns cleaned_cases) aggregated_columns) ∧
  ((∃ df', (run (ReadOk cases)).2 = Done df' ∧
           length (charts (run (ReadOk cases)).1) = 5) ∨
   (∃ r, r ∈ rows cleaned_cases ∧ iso_parse (month_label r) = None ∧
         (run (ReadOk cases)).2 = Uncaught (ValueError (month_label r)) ∧
         length (charts (run (ReadOk cases)).1) = 4)).
Proof.
  split; [split; [vm_compute; reflexivity|by_compute]|].
  apply (cleaned_run_fails_only_at_line_110 iso_parse no_epoch
           (ReadOk cases) cases_notices cleaned_cases);
    [vm_compute; reflexivity|by_compute].
Defined.

Lemma no_dated_rows_give_empty_charts_witness :
  ("Opened Date" ∈ columns unparsed_cases ∧
   Forall (λ c, c ∈ columns unparsed_cases) aggregated_columns ∧
   Forall (λ r, to_dt (r !! "Opened Date") = None) (rows unparsed_cases)) ∧
  ∃ df',
    (run (ReadOk unparsed_cases)).2 = Done df' ∧ n_rows df' = 0 ∧
    SidebarInfo no_duplicates_message ∈ (run (ReadOk unparsed_cases)).1 ∧
    charts (run (ReadOk unparsed_cases)).1
    = [ PlotlyChart (Bar "Distribution of Case Status" []);
        PlotlyChart (Bar "Distribution of Case Origin" []);
        PlotlyChart (Bar "Top 10 Product Brands by Case Count" []);
        PlotlyChart (Bar "Top 10 Reasons L1 Description by Case Count" []);
        PlotlyChart (Line "Monthly Trend of Cases Over Time" []) ].
Proof.
  split; [repeat split; by_compute|].
  apply no_dated_rows_give_empty_charts; by_compute.
Defined.


End Examples.
